(** * LocalStack: Step Functions execution backend, Task state and IAM role provider

    A shallow embedding of

      - [localstack/services/stepfunctions/backend/execution.py]
      - [localstack/services/stepfunctions/asl/component/state/state_execution/state_task/state_task.py]
      - [localstack-core/localstack/services/iam/resource_providers/aws_iam_role.py]

    Python objects are mutated in place and exceptions unwind the call stack
    while keeping every mutation made before the raise.  Both are modelled by
    one state-and-exception monad [Py]: a computation maps a store to an
    [outcome] and the store as the call leaves it. *)

From Stdlib Require Import ZArith Ascii String.
From stdpp Require Import base option list strings pretty gmap.

Local Open Scope string_scope.
Local Open Scope Z_scope.
Local Open Scope list_scope.

(** ** Python values *)

Module py.

(** [datetime.datetime] objects are only carried around by the code at
    hand: a naive timestamp is its count of microseconds. *)
Definition Timestamp : Type := Z.

(** The JSON-like documents the services exchange.  A [dict] is kept as
    the list of its items in insertion order, keys unique. *)
#[warnings="-register-all"]
Inductive pyval : Type :=
| PNone
| PBool (b : bool)
| PInt (n : Z)
| PStr (s : string)
| PDate (t : Timestamp)
| PList (xs : list pyval)
| PDict (items : list (string * pyval)).

Definition dict (V : Type) : Type := list (string * V).

(** [d.get(k)] as an option: [None] when the key is absent. *)
Fixpoint dict_get {V} (k : string) (d : dict V) : option V :=
  match d with
  | [] => None
  | (k', v) :: d' => if String.eqb k k' then Some v else dict_get k d'
  end.

(** [d[k] = v]: an existing key keeps its place, a new one goes last. *)
Fixpoint dict_set {V} (k : string) (v : V) (d : dict V) : dict V :=
  match d with
  | [] => [(k, v)]
  | (k', v') :: d' =>
      if String.eqb k k' then (k, v) :: d' else (k', v') :: dict_set k v d'
  end.

Definition dict_keys {V} (d : dict V) : list string := d.*1.

(** [d.get(k, default)] on a document. *)
Definition get_default (k : string) (dflt : pyval) (d : dict pyval) : pyval :=
  default dflt (dict_get k d).

(** [d.get(k)]: [None] for an absent key. *)
Definition get (k : string) (d : dict pyval) : pyval := get_default k PNone d.

Definition opt_str (o : option string) : pyval :=
  match o with Some s => PStr s | None => PNone end.

Definition opt_date (o : option Timestamp) : pyval :=
  match o with Some t => PDate t | None => PNone end.

(** Truth value testing ([if v:], [not v], [a and b], [a or b]). *)
Definition truthy (v : pyval) : bool :=
  match v with
  | PNone => false
  | PBool b => b
  | PInt n => negb (n =? 0)
  | PStr s => negb (String.eqb s EmptyString)
  | PDate _ => true
  | PList xs => match xs with [] => false | _ => true end
  | PDict items => match items with [] => false | _ => true end
  end.

(** [a == b].  [bool] is a subclass of [int] ([True == 1]); two dicts are
    equal when they hold the same keys with equal values, in any order. *)
Fixpoint py_eq (a b : pyval) {struct a} : bool :=
  match a, b with
  | PNone, PNone => true
  | PBool x, PBool y => Bool.eqb x y
  | PBool x, PInt n | PInt n, PBool x => n =? (if x then 1 else 0)
  | PInt m, PInt n => m =? n
  | PStr s, PStr t => String.eqb s t
  | PDate s, PDate t => s =? t
  | PList xs, PList ys =>
      (fix all2 (xs ys : list pyval) {struct xs} : bool :=
         match xs, ys with
         | [], [] => true
         | x :: xs', y :: ys' => py_eq x y && all2 xs' ys'
         | _, _ => false
         end) xs ys
  | PDict d, PDict e =>
      (length d =? length e)%nat &&
      (fix sub (d : list (string * pyval)) {struct d} : bool :=
         match d with
         | [] => true
         | (k, v) :: d' =>
             match dict_get k e with
             | Some w => py_eq v w
             | None => false
             end && sub d'
         end) d
  | _, _ => false
  end.

Definition py_ne (a b : pyval) : bool := negb (py_eq a b).

(** A document is well formed when no dict in it holds a key twice. *)
Fixpoint wf_doc (v : pyval) : Prop :=
  match v with
  | PList xs =>
      (fix all (xs : list pyval) : Prop :=
         match xs with
         | [] => True
         | x :: xs' => wf_doc x ∧ all xs'
         end) xs
  | PDict d =>
      NoDup (d.*1) ∧
      (fix all (d : list (string * pyval)) : Prop :=
         match d with
         | [] => True
         | (_, x) :: d' => wf_doc x ∧ all d'
         end) d
  | _ => True
  end.

(** The number of constructors of a document. *)
Fixpoint doc_size (v : pyval) : nat :=
  match v with
  | PList xs =>
      Datatypes.S
        ((fix sum (xs : list pyval) : nat :=
            match xs with
            | [] => 0%nat
            | x :: xs' => (doc_size x + sum xs')%nat
            end) xs)
  | PDict d =>
      Datatypes.S
        ((fix sum (d : list (string * pyval)) : nat :=
            match d with
            | [] => 0%nat
            | (_, x) :: d' => (doc_size x + sum d')%nat
            end) d)
  | _ => 1%nat
  end.

(** Exceptions: the class of the object, the classes it inherits from
    (what [isinstance] and [except] look at) and its message. *)
Record PyExc : Type := mkExc {
  exc_class : string;
  exc_bases : list string;
  exc_msg : string
}.

Definition isinstance (ex : PyExc) (cls : string) : bool :=
  bool_decide (cls ∈ exc_class ex :: exc_bases ex).

Definition builtin_exc (cls : string) (bases : list string) (msg : string) : PyExc :=
  mkExc cls (bases ++ ["Exception"; "BaseException"]) msg.

Definition KeyError (k : string) : PyExc := builtin_exc "KeyError" ["LookupError"] k.
Definition IndexError (msg : string) : PyExc := builtin_exc "IndexError" ["LookupError"] msg.
Definition TypeError (msg : string) : PyExc := builtin_exc "TypeError" [] msg.
Definition ValueError (msg : string) : PyExc := builtin_exc "ValueError" [] msg.
Definition AttributeError (msg : string) : PyExc := builtin_exc "AttributeError" [] msg.
Definition RuntimeError (msg : string) : PyExc := builtin_exc "RuntimeError" [] msg.
Definition RuntimeWarning (msg : string) : PyExc := builtin_exc "RuntimeWarning" ["Warning"] msg.
Definition TimeoutError (msg : string) : PyExc := builtin_exc "TimeoutError" ["OSError"] msg.

(** How a call ends. *)
Inductive outcome (A : Type) : Type :=
| Returns (a : A)
| Raises (ex : PyExc).
Global Arguments Returns {A} a.
Global Arguments Raises {A} ex.

(** A computation over a store [S]. *)
Definition Py (S A : Type) : Type := S → outcome A * S.

Definition ret {S A} (a : A) : Py S A := λ s, (Returns a, s).

Definition bind {S A B} (m : Py S A) (k : A → Py S B) : Py S B :=
  λ s, match m s with
       | (Returns a, s') => k a s'
       | (Raises ex, s') => (Raises ex, s')
       end.

Global Instance Py_ret {S} : MRet (Py S) := λ A, ret.
Global Instance Py_bind {S} : MBind (Py S) := λ A B k m, bind m k.

Definition raise {S A} (ex : PyExc) : Py S A := λ s, (Raises ex, s).
Definition gets {S A} (f : S → A) : Py S A := λ s, (Returns (f s), s).
Definition modify {S} (f : S → S) : Py S unit := λ s, (Returns tt, f s).

(** A pure step that may raise. *)
Definition lift {S A} (o : outcome A) : Py S A := λ s, (o, s).

(** [try: body / except cls as ex: handler ex]. *)
Definition try_except {S A} (body : Py S A) (cls : string) (handler : PyExc → Py S A)
  : Py S A :=
  λ s, match body s with
       | (Returns a, s') => (Returns a, s')
       | (Raises ex, s') =>
           if isinstance ex cls then handler ex s' else (Raises ex, s')
       end.

(** [for x in xs: body x]. *)
Fixpoint for_each {S A} (xs : list A) (body : A → Py S unit) : Py S unit :=
  match xs with
  | [] => ret tt
  | x :: xs' => bind (body x) (λ _, for_each xs' body)
  end.

(** [v[k]] for a string key. *)
Definition getitem (v : pyval) (k : string) : outcome pyval :=
  match v with
  | PDict d => match dict_get k d with
               | Some x => Returns x
               | None => Raises (KeyError k)
               end
  | _ => Raises (TypeError "subscript")
  end.

End py.

(** ** The interpreter's environment ([asl/eval]) *)

Module asl.
Import py.

(** Modelled from the spec: [asl/eval/program_state.py] is not among the
    sources.  The spec's Program State is one of Running, Ended, Stopped
    and Errored(error, cause); the completion callback tells them apart by
    class and subscripts the [error] mapping of a [ProgramError] with
    ["error"] and ["cause"], so that mapping is kept as the keyed document
    it is (a key may be absent, a value may be [None]). *)
Inductive ProgramState : Type :=
| ProgramRunning
| ProgramEnded
| ProgramStopped (stop_date : Timestamp) (error cause : option string)
| ProgramError (error : dict (option string)).

(** The spec's [Errored(error, cause)]. *)
Definition Errored (error cause : option string) : ProgramState :=
  ProgramError [("error", error); ("cause", cause)].

(** [type(ps)] as an f-string prints it. *)
Definition type_repr (ps : ProgramState) : string :=
  "<class 'localstack.services.stepfunctions.asl.eval.program_state." +:+
  match ps with
  | ProgramRunning => "ProgramRunning"
  | ProgramEnded => "ProgramEnded"
  | ProgramStopped _ _ _ => "ProgramStopped"
  | ProgramError _ => "ProgramError"
  end +:+ "'>".

(** Modelled from the spec: [asl/eval/environment.py] is not among the
    sources.  Of the spec's Environment the code at hand reads the Program
    State holder ([program_state()]), the value stack ([stack]), the
    context object, and [inp], the document the engine currently works on:
    the input of the state being evaluated and, once the program has
    ended, its final output. *)
Record Environment : Type := mkEnvironment {
  program_state : ProgramState;
  inp : pyval;
  stack : list pyval;
  context_object : dict pyval
}.

End asl.

(** ** [backend/execution.py] *)

Module execution.
Import py asl.

Definition Arn : Type := string.

(** [ExecutionStatus], a [str]-valued enumeration of the service API. *)
Inductive ExecutionStatus : Type := RUNNING | SUCCEEDED | FAILED | TIMED_OUT | ABORTED.

Definition status_value (s : ExecutionStatus) : string :=
  match s with
  | RUNNING => "RUNNING"
  | SUCCEEDED => "SUCCEEDED"
  | FAILED => "FAILED"
  | TIMED_OUT => "TIMED_OUT"
  | ABORTED => "ABORTED"
  end.

Definition opt_status (o : option ExecutionStatus) : pyval :=
  match o with Some s => PStr (status_value s) | None => PNone end.

(** What the code reads of [backend/state_machine.py]'s [StateMachine]:
    its [name], [arn] and [definition] attributes. *)
Record StateMachine : Type := mkStateMachine {
  sm_name : string;
  sm_arn : Arn;
  sm_definition : string
}.

(** [CloudWatchEventsExecutionDataDetails(included=True)]. *)
Definition data_details_included : pyval := PDict [("included", PBool true)].

Definition InvalidName : PyExc :=
  mkExc "InvalidName" ["ServiceException"; "Exception"; "BaseException"] EmptyString.

(** The [Execution] object.  [exec_worker] is a reference: the index of
    the worker object in the store's heap.  The [_events_client]
    attribute is assigned once, in [__init__], and refers to the client
    object of the store from then on. *)
Record Execution : Type := mkExecution {
  name : string;
  role_arn : Arn;
  exec_arn : Arn;
  state_machine : StateMachine;
  start_date : Timestamp;
  input_data : pyval;
  input_details : pyval;
  trace_header : option string;
  exec_status : option ExecutionStatus;
  stop_date : option Timestamp;
  output : option string;
  output_details : pyval;
  error : option string;
  cause : option string;
  exec_worker : option nat
}.

(** [Execution.__init__] (lines 93-118); the events client it connects to
    lives in the store. *)
Definition __init__ (name : string) (role_arn exec_arn : Arn)
    (state_machine : StateMachine) (start_date : Timestamp)
    (input_data : pyval) (trace_header : option string) : Execution :=
  {| name := name; role_arn := role_arn; exec_arn := exec_arn;
     state_machine := state_machine; start_date := start_date;
     input_data := input_data; input_details := data_details_included;
     trace_header := trace_header; exec_status := None; stop_date := None;
     output := None; output_details := data_details_included;
     error := None; cause := None; exec_worker := None |}.

(** Attribute assignments [self.<field> = v]. *)
Definition set_exec_status (v : option ExecutionStatus) (e : Execution) : Execution :=
  {| name := name e; role_arn := role_arn e; exec_arn := exec_arn e;
     state_machine := state_machine e; start_date := start_date e;
     input_data := input_data e; input_details := input_details e;
     trace_header := trace_header e; exec_status := v; stop_date := stop_date e;
     output := output e; output_details := output_details e;
     error := error e; cause := cause e; exec_worker := exec_worker e |}.

Definition set_stop_date (v : option Timestamp) (e : Execution) : Execution :=
  {| name := name e; role_arn := role_arn e; exec_arn := exec_arn e;
     state_machine := state_machine e; start_date := start_date e;
     input_data := input_data e; input_details := input_details e;
     trace_header := trace_header e; exec_status := exec_status e; stop_date := v;
     output := output e; output_details := output_details e;
     error := error e; cause := cause e; exec_worker := exec_worker e |}.

Definition set_output (v : option string) (e : Execution) : Execution :=
  {| name := name e; role_arn := role_arn e; exec_arn := exec_arn e;
     state_machine := state_machine e; start_date := start_date e;
     input_data := input_data e; input_details := input_details e;
     trace_header := trace_header e; exec_status := exec_status e;
     stop_date := stop_date e; output := v; output_details := output_details e;
     error := error e; cause := cause e; exec_worker := exec_worker e |}.

Definition set_error (v : option string) (e : Execution) : Execution :=
  {| name := name e; role_arn := role_arn e; exec_arn := exec_arn e;
     state_machine := state_machine e; start_date := start_date e;
     input_data := input_data e; input_details := input_details e;
     trace_header := trace_header e; exec_status := exec_status e;
     stop_date := stop_date e; output := output e;
     output_details := output_details e;
     error := v; cause := cause e; exec_worker := exec_worker e |}.

Definition set_cause (v : option string) (e : Execution) : Execution :=
  {| name := name e; role_arn := role_arn e; exec_arn := exec_arn e;
     state_machine := state_machine e; start_date := start_date e;
     input_data := input_data e; input_details := input_details e;
     trace_header := trace_header e; exec_status := exec_status e;
     stop_date := stop_date e; output := output e;
     output_details := output_details e;
     error := error e; cause := v; exec_worker := exec_worker e |}.

Definition set_exec_worker (v : option nat) (e : Execution) : Execution :=
  {| name := name e; role_arn := role_arn e; exec_arn := exec_arn e;
     state_machine := state_machine e; start_date := start_date e;
     input_data := input_data e; input_details := input_details e;
     trace_header := trace_header e; exec_status := exec_status e;
     stop_date := stop_date e; output := output e;
     output_details := output_details e;
     error := error e; cause := cause e; exec_worker := v |}.

(** The attributes of an execution, and what it means for a step from [e]
    to [e'] to mutate none but the attributes listed. *)
Inductive field : Type :=
| f_name | f_role_arn | f_exec_arn | f_state_machine | f_start_date
| f_input_data | f_input_details | f_trace_header
| f_exec_status | f_stop_date | f_output | f_output_details
| f_error | f_cause | f_exec_worker.

Definition same_field (f : field) (e e' : Execution) : Prop :=
  match f with
  | f_name => name e' = name e
  | f_role_arn => role_arn e' = role_arn e
  | f_exec_arn => exec_arn e' = exec_arn e
  | f_state_machine => state_machine e' = state_machine e
  | f_start_date => start_date e' = start_date e
  | f_input_data => input_data e' = input_data e
  | f_input_details => input_details e' = input_details e
  | f_trace_header => trace_header e' = trace_header e
  | f_exec_status => exec_status e' = exec_status e
  | f_stop_date => stop_date e' = stop_date e
  | f_output => output e' = output e
  | f_output_details => output_details e' = output_details e
  | f_error => error e' = error e
  | f_cause => cause e' = cause e
  | f_exec_worker => exec_worker e' = exec_worker e
  end.

Definition only_mutates (fs : list field) (e e' : Execution) : Prop :=
  ∀ f, f ∉ fs → same_field f e e'.

(** The attributes that [start], [stop] and [terminated] assign to. *)
Definition mutable_fields : list field :=
  [f_exec_status; f_stop_date; f_output; f_error; f_cause; f_exec_worker].

(** [PutEventsRequestEntry] as the notification fills it. *)
Record PutEventsRequestEntry : Type := mkEntry {
  Source : string;
  Resources : list Arn;
  DetailType : string;
  Detail : string
}.

(** The separators [(",", ":")] of the compact encoding. *)
Definition compact : option (string * string) := Some (",", ":").

(** The collaborators of [Execution] that are not among the sources: the
    JSON encoder, the worker class and the EventBridge client.  A worker
    or client object is a value of the class's state type and a method is
    a computation over that state. *)
Class Collaborators : Type := {
  (** [asl/utils/encoding.to_json_str(obj, separators)] *)
  to_json_str : pyval → option (string * string) → string;
  (** [start_date.time().isoformat()] *)
  time_isoformat : Timestamp → string;
  ExecutionWorker : Type;
  (** [ExecutionWorker(role_arn, definition, input_data, exec_comm,
      context_object_init)]; [exec_comm] is the callback object bound to
      the one execution of the store. *)
  ExecutionWorker_init : Arn → string → pyval → pyval → outcome ExecutionWorker;
  ExecutionWorker_start : Py ExecutionWorker unit;
  (** [stop(stop_date, cause, error)] *)
  ExecutionWorker_stop : Timestamp → option string → option string → Py ExecutionWorker unit;
  (** the worker's [env] attribute *)
  ExecutionWorker_env : ExecutionWorker → Environment;
  EventsClient : Type;
  put_events : list PutEventsRequestEntry → Py EventsClient unit;
  (** [str(entry)] in a log message *)
  entry_str : PutEventsRequestEntry → string
}.

Section Execution.
Context `{Collaborators}.

(** The store: the execution object, the worker objects created so far,
    the state of the events client and the records handed to [LOG]. *)
Record World : Type := mkWorld {
  self : Execution;
  heap : list ExecutionWorker;
  events_client : EventsClient;
  LOG : list string
}.

Definition new_world (e : Execution) (client : EventsClient) : World :=
  {| self := e; heap := []; events_client := client; LOG := [] |}.

Definition update_self (f : Execution → Execution) : Py World unit :=
  modify (λ w, {| self := f (self w); heap := heap w;
                  events_client := events_client w; LOG := LOG w |}).

(** [LOG.exception(msg)] *)
Definition LOG_exception (msg : string) : Py World unit :=
  modify (λ w, {| self := self w; heap := heap w;
                  events_client := events_client w; LOG := LOG w ++ [msg] |}).

(** A method call on the events client. *)
Definition on_events_client {A} (m : Py EventsClient A) : Py World A :=
  λ w, let '(o, c) := m (events_client w) in
       (o, {| self := self w; heap := heap w; events_client := c; LOG := LOG w |}).

(** Allocation of a worker object; the result is its reference. *)
Definition alloc (wk : ExecutionWorker) : Py World nat :=
  λ w, (Returns (length (heap w)),
        {| self := self w; heap := heap w ++ [wk];
           events_client := events_client w; LOG := LOG w |}).

(** Attribute access through [self.exec_worker]: [None] has no attributes.
    A reference always points into the heap ([wf_world] below); the last
    case only makes the function total. *)
Definition the_worker : Py World (nat * ExecutionWorker) :=
  λ w, match exec_worker (self w) with
       | None => (Raises (AttributeError "'NoneType' object has no attribute"), w)
       | Some r => match heap w !! r with
                   | Some wk => (Returns (r, wk), w)
                   | None => (Raises (builtin_exc "ReferenceError" [] EmptyString), w)
                   end
       end.

(** A method call on the worker object at [r]. *)
Definition on_worker {A} (r : nat) (m : Py ExecutionWorker A) : Py World A :=
  λ w, match heap w !! r with
       | Some wk =>
           let '(o, wk') := m wk in
           (o, {| self := self w; heap := <[r := wk']> (heap w);
                  events_client := events_client w; LOG := LOG w |})
       | None => (Raises (builtin_exc "ReferenceError" [] EmptyString), w)
       end.

Definition to_start_output (e : Execution) : dict pyval :=
  [("executionArn", PStr (exec_arn e)); ("startDate", PDate (start_date e))].

(** Lines 123-142. *)
Definition to_describe_output (e : Execution) : dict pyval :=
  let describe_output :=
    [("executionArn", PStr (exec_arn e));
     ("stateMachineArn", PStr (sm_arn (state_machine e)));
     ("name", PStr (name e));
     ("status", opt_status (exec_status e));
     ("startDate", PDate (start_date e));
     ("stopDate", opt_date (stop_date e));
     ("input", PStr (to_json_str (input_data e) compact));
     ("inputDetails", input_details e);
     ("traceHeader", opt_str (trace_header e))] in
  let describe_output :=
    if py_eq (get "status" describe_output) (PStr (status_value SUCCEEDED))
    then dict_set "outputDetails" (output_details e)
           (dict_set "output" (opt_str (output e)) describe_output)
    else describe_output in
  let describe_output :=
    match error e with
    | Some err => dict_set "error" (PStr err) describe_output
    | None => describe_output
    end in
  let describe_output :=
    match cause e with
    | Some c => dict_set "cause" (PStr c) describe_output
    | None => describe_output
    end in
  describe_output.

Definition to_execution_list_item (e : Execution) : dict pyval :=
  [("executionArn", PStr (exec_arn e));
   ("stateMachineArn", PStr (sm_arn (state_machine e)));
   ("name", PStr (name e));
   ("status", opt_status (exec_status e));
   ("startDate", PDate (start_date e));
   ("stopDate", opt_date (stop_date e))].

(** The entry built on lines 193-221. *)
Definition status_change_entry (e : Execution) : PutEventsRequestEntry :=
  let input_value :=
    if negb (truthy (input_data e)) then PDict []
    else PStr (to_json_str (input_data e) compact) in
  let output_value := output e in
  let output_details :=
    match output_value with None => PNone | Some _ => output_details e end in
  {| Source := "aws.states";
     Resources := [exec_arn e];
     DetailType := "Step Functions Execution Status Change";
     Detail :=
       to_json_str
         (PDict
            [("executionArn", PStr (exec_arn e));
             ("stateMachineArn", PStr (sm_arn (state_machine e)));
             ("stateMachineAliasArn", PNone);
             ("stateMachineVersionArn", PNone);
             ("name", PStr (name e));
             ("status", opt_status (exec_status e));
             ("startDate", PDate (start_date e));
             ("stopDate", opt_date (stop_date e));
             ("input", input_value);
             ("inputDetails", input_details e);
             ("output", opt_str output_value);
             ("outputDetails", output_details);
             ("error", opt_str (error e));
             ("cause", opt_str (cause e))])
         None |}.

Definition publish_failure_message (entry : PutEventsRequestEntry) (arn : Arn) : string :=
  "Unable to send notification of Entry='" +:+ entry_str entry +:+
  "' for Step Function execution with Arn='" +:+ arn +:+ "' to EventBridge.".

(** Lines 192-227. *)
Definition _publish_execution_status_change_event : Py World unit :=
  e ← gets self;
  let entry := status_change_entry e in
  try_except
    (on_events_client (put_events [entry]))
    "Exception"
    (λ _, LOG_exception (publish_failure_message entry (exec_arn e))).

(** [BaseExecutionWorkerComm.terminated] (lines 53-71); [now] is what
    [datetime.datetime.now()] reads. *)
Definition terminated (now : Timestamp) : Py World unit :=
  '(_, wk) ← the_worker;
  let exit_program_state := program_state (ExecutionWorker_env wk) in
  update_self (set_stop_date (Some now));;
  match exit_program_state with
  | ProgramEnded =>
      update_self (set_exec_status (Some SUCCEEDED));;
      '(_, wk) ← the_worker;
      update_self (set_output (Some (to_json_str (inp (ExecutionWorker_env wk)) compact)))
  | ProgramStopped _ _ _ =>
      update_self (set_exec_status (Some ABORTED))
  | ProgramError err =>
      update_self (set_exec_status (Some FAILED));;
      v ← lift (match dict_get "error" err with
                | Some v => Returns v
                | None => Raises (KeyError "error")
                end);
      update_self (set_error v);;
      v ← lift (match dict_get "cause" err with
                | Some v => Returns v
                | None => Raises (KeyError "cause")
                end);
      update_self (set_cause v)
  | _ =>
      raise (RuntimeWarning
               ("Execution ended with unsupported ProgramState type '" +:+
                type_repr exit_program_state +:+ "'."))
  end;;
  _publish_execution_status_change_event.

(** Lines 158-184.  A worker object is truthy: [if self.exec_worker]
    asks whether the attribute holds one. *)
Definition start : Py World unit :=
  e ← gets self;
  if bool_decide (is_Some (exec_worker e)) then raise InvalidName
  else
    worker ← lift (ExecutionWorker_init
                     (role_arn e)
                     (sm_definition (state_machine e))
                     (input_data e)
                     (PDict
                        [("Execution",
                          PDict [("Id", PStr "TODO");
                                 ("Input", input_data e);
                                 ("Name", PStr (sm_name (state_machine e)));
                                 ("RoleArn", PStr "TODO");
                                 ("StartTime", PStr (time_isoformat (start_date e)))]);
                         ("StateMachine",
                          PDict [("Id", PStr "TODO");
                                 ("Name", PStr (sm_name (state_machine e)))])]));
    r ← alloc worker;
    update_self (set_exec_worker (Some r));;
    update_self (set_exec_status (Some RUNNING));;
    _publish_execution_status_change_event;;
    '(r, _) ← the_worker;
    on_worker r ExecutionWorker_start.

(** Lines 186-190. *)
Definition stop (stop_date : Timestamp) (error cause : option string) : Py World unit :=
  e ← gets self;
  match exec_worker e with
  | None => raise (RuntimeError "No running executions.")
  | Some r => on_worker r (ExecutionWorker_stop stop_date cause error)
  end.

(** What can happen to an execution after its construction: the front
    door calls [start] or [stop], the worker calls [terminated] back, and
    the worker's own thread changes the worker object. *)
Inductive call : Type :=
| call_start
| call_stop (stop_date : Timestamp) (error cause : option string)
| call_terminated (now : Timestamp)
| worker_runs (r : nat) (wk : ExecutionWorker).

Definition exec_call (c : call) : Py World unit :=
  match c with
  | call_start => start
  | call_stop stop_date error cause => stop stop_date error cause
  | call_terminated now => terminated now
  | worker_runs r wk => on_worker r (modify (λ _, wk))
  end.

(** The store after a sequence of calls; a call that raises leaves the
    store as it was at the raise. *)
Definition run (cs : list call) (w : World) : World :=
  foldl (λ w c, (exec_call c w).2) w cs.

(** The worker an execution holds is the one worker ever created for it. *)
Definition wf_world (w : World) : Prop :=
  match exec_worker (self w) with
  | None => heap w = []
  | Some r => r = 0%nat ∧ length (heap w) = 1%nat
  end.

(** The [ContextObjectInitData] that [start] hands to the worker (lines
    168-180). *)
Definition context_object_init (e : Execution) : pyval :=
  PDict
    [("Execution",
      PDict [("Id", PStr "TODO");
             ("Input", input_data e);
             ("Name", PStr (sm_name (state_machine e)));
             ("RoleArn", PStr "TODO");
             ("StartTime", PStr (time_isoformat (start_date e)))]);
     ("StateMachine",
      PDict [("Id", PStr "TODO");
             ("Name", PStr (sm_name (state_machine e)))])].

(** The execution as [start] leaves it once the worker object [r] exists. *)
Definition running_with (r : nat) (e : Execution) : Execution :=
  set_exec_status (Some RUNNING) (set_exec_worker (Some r) e).

(** What an execution shows over its life: nothing before it holds a
    worker, and one of four statuses from then on. *)
Definition lifecycle_ok (e : Execution) : Prop :=
  match exec_worker e with
  | None =>
      exec_status e = None ∧ stop_date e = None ∧ output e = None ∧
      error e = None ∧ cause e = None
  | Some _ =>
      exec_status e ∈ [Some RUNNING; Some SUCCEEDED; Some FAILED; Some ABORTED]
  end.

(** A program state the completion callback has a branch for, with the
    status it assigns. *)
Definition final_status (ps : ProgramState) : option ExecutionStatus :=
  match ps with
  | ProgramEnded => Some SUCCEEDED
  | ProgramStopped _ _ _ => Some ABORTED
  | ProgramError _ => Some FAILED
  | ProgramRunning => None
  end.

End Execution.
End execution.

(** ** [asl/component/state/state_execution/state_task/state_task.py] *)

Module state_task.
Import py asl.

(** Modelled from the spec: [states_error_name_type.py] is not among the
    sources; the members and their names are the taxonomy of the spec's
    error handling design. *)
Inductive StatesErrorNameType : Type :=
| StatesALL
| StatesTimeout
| StatesTaskFailed
| StatesRuntime
| StatesNoChoiceMatched.

Definition to_name (typ : StatesErrorNameType) : string :=
  match typ with
  | StatesALL => "States.ALL"
  | StatesTimeout => "States.Timeout"
  | StatesTaskFailed => "States.TaskFailed"
  | StatesRuntime => "States.Runtime"
  | StatesNoChoiceMatched => "States.NoChoiceMatched"
  end.

(** An error name is one of the predefined ones or a custom string. *)
Inductive ErrorName : Type :=
| StatesErrorName (typ : StatesErrorNameType)
| CustomErrorName (error_name : string).

Definition error_name_str (n : ErrorName) : string :=
  match n with
  | StatesErrorName typ => to_name typ
  | CustomErrorName s => s
  end.

(** [HistoryEventType], a [str]-valued enumeration of the service API. *)
Definition HistoryEventType : Type := string.
Definition TaskStateEntered : HistoryEventType := "TaskStateEntered".
Definition TaskStateExited : HistoryEventType := "TaskStateExited".
Definition TaskTimedOut : HistoryEventType := "TaskTimedOut".

Record FailureEvent : Type := mkFailureEvent {
  error_name : ErrorName;
  event_type : HistoryEventType;
  event_details : pyval
}.

(** The components a Task state is built from and the parent class it
    extends, none of them among the sources. *)
Class Components : Type := {
  Parameters : Type;
  (** [Parameters.eval(env)] leaves its result on the stack *)
  Parameters_eval : Parameters → Py Environment unit;
  Resource : Type;
  (** [ExecutionState._from_error(env, ex)], the generic conversion *)
  ExecutionState__from_error : PyExc → Py Environment FailureEvent
}.

Section StateTask.
Context `{Components}.

(** A Task state.  [StateTask] is abstract: what a subclass returns from
    [_get_supported_parameters] is a field here; the base class returns
    [None]. *)
Record StateTask : Type := mkStateTask {
  parameters : option Parameters;
  resource : Resource;
  _get_supported_parameters : option (gset string)
}.

(** [StateTask.__init__] followed by [from_state_props]. *)
Definition from_state_props (parameters : option Parameters) (resource : Resource)
  : StateTask :=
  {| parameters := parameters; resource := resource;
     _get_supported_parameters := None |}.

(** Lines 81-90. *)
Definition _get_timed_out_failure_event (self : StateTask) : FailureEvent :=
  {| error_name := StatesErrorName StatesTimeout;
     event_type := TaskTimedOut;
     event_details :=
       PDict [("taskTimedOutEventDetails",
               PDict [("error", PStr (to_name StatesTimeout))])] |}.

(** Lines 92-95. *)
Definition _from_error (self : StateTask) (ex : PyExc) : Py Environment FailureEvent :=
  if isinstance ex "TimeoutError" then ret (_get_timed_out_failure_event self)
  else ExecutionState__from_error ex.

(** [env.stack.pop()]: the stack is a Python list, its top the last item. *)
Definition stack_pop : Py Environment pyval :=
  λ env, match last (stack env) with
         | Some v =>
             (Returns v,
              {| program_state := program_state env; inp := inp env;
                 stack := removelast (stack env);
                 context_object := context_object env |})
         | None => (Raises (IndexError "pop from empty list"), env)
         end.

(** [d.pop(k, None)] on the items of a dict. *)
Definition dict_pop (k : string) (d : dict pyval) : dict pyval :=
  filter (λ kv, kv.1 ≠ k) d.

(** Lines 97-115.  An empty set of supported parameters is falsy, like
    [None]. *)
Definition _eval_parameters (self : StateTask) : Py Environment pyval :=
  parameters ←
    match parameters self with
    | Some p => Parameters_eval p;; stack_pop
    | None => ret (PDict [])
    end;
  match _get_supported_parameters self with
  | Some supported_parameters =>
      if bool_decide (supported_parameters ≠ ∅) then
        match parameters with
        | PDict items =>
            let unsupported_parameters :=
              filter (λ parameter, parameter ∉ supported_parameters) (dict_keys items) in
            ret (PDict (foldl (λ d parameter, dict_pop parameter d)
                              items unsupported_parameters))
        | _ => raise (AttributeError "object has no attribute 'keys'")
        end
      else ret parameters
  | None => ret parameters
  end.

(** Lines 69-79.  [bindings] is what [_get_parameters_normalising_bindings]
    returns, [dict()] in the base class; a deep copy of a document is the
    document.  The keys are taken from the copy before the loop runs, an
    empty name bound to a key is falsy, and [d[k]] on a key that is gone
    raises [KeyError]. *)
Definition _normalised_parameters_bindings (bindings : dict string)
    (parameters : dict pyval) : outcome (dict pyval) :=
  foldl
    (λ acc parameter_key,
       match acc with
       | Raises ex => Raises ex
       | Returns normalised_parameters =>
           match dict_get parameter_key bindings with
           | Some norm_parameter_key =>
               if negb (String.eqb norm_parameter_key EmptyString) then
                 match dict_get parameter_key normalised_parameters with
                 | Some tmp =>
                     Returns (dict_set norm_parameter_key tmp
                                (dict_pop parameter_key normalised_parameters))
                 | None => Raises (KeyError parameter_key)
                 end
               else Returns normalised_parameters
           | None => Returns normalised_parameters
           end
       end)
    (Returns parameters) (dict_keys parameters).

End StateTask.
End state_task.

(** ** [services/iam/resource_providers/aws_iam_role.py] *)

Module aws_iam_role.
Import py.

Definition REPEATED_INVOCATION : string := "repeated_invocation".
Definition IAM_POLICY_VERSION : string := "2012-10-17".

(** [OperationStatus] and [ProgressEvent] of the resource provider
    framework. *)
Inductive OperationStatus : Type := PENDING | IN_PROGRESS | SUCCESS | FAILED.

Record ProgressEvent : Type := mkProgressEvent {
  status : OperationStatus;
  resource_model : dict pyval
}.

(** What the provider reads of a [ResourceRequest]; its client factory and
    its logger live in the store. *)
Record ResourceRequest : Type := mkResourceRequest {
  desired_state : dict pyval;
  previous_state : dict pyval;
  stack_name : string;
  logical_resource_id : string
}.

(** The services the provider calls that are not among the sources.  A
    client call is the operation's name with its keyword arguments. *)
Class Services : Type := {
  IamClient : Type;
  iam_call : string → dict pyval → Py IamClient pyval;
  (** [util.generate_default_name(stack_name, logical_resource_id)] *)
  generate_default_name : string → string → string;
  (** [util.remove_none_values(obj)] *)
  remove_none_values : pyval → pyval;
  (** [json.dumps(obj)] *)
  json_dumps : pyval → string
}.

(** [isinstance(v, dict)], [isinstance(v, list)]. *)
Definition is_dict (v : pyval) : bool := match v with PDict _ => true | _ => false end.
Definition is_list (v : pyval) : bool := match v with PList _ => true | _ => false end.

(** The items a [for] loop draws from a value: the items of a list, the
    keys of a dict, the characters of a string. *)
Definition py_iter (v : pyval) : outcome (list pyval) :=
  match v with
  | PList xs => Returns xs
  | PDict items => Returns (PStr <$> dict_keys items)
  | PStr s => Returns ((λ c, PStr (String c EmptyString)) <$> String.list_ascii_of_string s)
  | _ => Raises (TypeError "object is not iterable")
  end.

(** [v.get(k, default)] as a method call: only a dict has it. *)
Definition get_method (v : pyval) (k : string) (dflt : pyval) : outcome pyval :=
  match v with
  | PDict d => Returns (get_default k dflt d)
  | _ => Raises (AttributeError "object has no attribute 'get'")
  end.

(** [d[k]] on a dict. *)
Definition subscript (d : dict pyval) (k : string) : outcome pyval :=
  match dict_get k d with
  | Some v => Returns v
  | None => Raises (KeyError k)
  end.

(** [dict(v)]: a copy of a dict, and otherwise the dict built from the
    pairs [v] iterates over.  The keys of a document are strings: a pair
    whose first item is no string has no counterpart among the documents
    and is reported as a [TypeError]. *)
Definition pair_of (v : pyval) : outcome (string * pyval) :=
  match py_iter v with
  | Returns [PStr k; x] => Returns (k, x)
  | Returns [_; _] => Raises (TypeError "unhashable or non-string key")
  | Returns _ => Raises (ValueError "dictionary update sequence element")
  | Raises ex => Raises ex
  end.

Fixpoint dict_of_pairs (xs : list pyval) (acc : dict pyval) : outcome (dict pyval) :=
  match xs with
  | [] => Returns acc
  | x :: xs' =>
      match pair_of x with
      | Returns (k, v) => dict_of_pairs xs' (dict_set k v acc)
      | Raises ex => Raises ex
      end
  end.

Definition dict_of (v : pyval) : outcome (dict pyval) :=
  match v with
  | PDict d => Returns d
  | _ => match py_iter v with
         | Returns xs => dict_of_pairs xs []
         | Raises ex => Raises ex
         end
  end.

(** The body of the loop over the statements (lines 121-124), which
    rewrites a statement in place. *)
Definition filter_statement_resources (statement : pyval) : outcome pyval :=
  match statement with
  | PDict st =>
      match get "Resource" st with
      | PList rs => Returns (PDict (dict_set "Resource" (PList (filter (λ r, truthy r) rs)) st))
      | _ => Returns statement
      end
  | _ => Raises (AttributeError "object has no attribute 'get'")
  end.

Fixpoint map_outcome {A B} (f : A → outcome B) (xs : list A) : outcome (list B) :=
  match xs with
  | [] => Returns []
  | x :: xs' =>
      match f x with
      | Returns y =>
          match map_outcome f xs' with
          | Returns ys => Returns (y :: ys)
          | Raises ex => Raises ex
          end
      | Raises ex => Raises ex
      end
  end.

Section IAMRoleProvider.
Context `{Services}.

(** The policy document sent for an inline policy (lines 115-125): the
    statements are rewritten inside the document returned by
    [remove_none_values]. *)
Definition inline_policy_document (policy : dict pyval) : outcome string :=
  match subscript policy "PolicyDocument" with
  | Raises ex => Raises ex
  | Returns raw =>
      match dict_of raw with
      | Raises ex => Raises ex
      | Returns copied =>
          match remove_none_values (PDict copied) with
          | PDict doc =>
              let version := get "Version" doc in
              let doc :=
                dict_set "Version"
                  (if truthy version then version else PStr IAM_POLICY_VERSION) doc in
              match subscript doc "Statement" with
              | Raises ex => Raises ex
              | Returns statements =>
                  match
                    map_outcome filter_statement_resources
                      (match statements with PList sts => sts | _ => [statements] end)
                  with
                  | Raises ex => Raises ex
                  | Returns sts' =>
                      Returns
                        (json_dumps
                           (PDict
                              (dict_set "Statement"
                                 (match statements with
                                  | PList _ => PList sts'
                                  | _ => default statements (head sts')
                                  end) doc)))
                  end
              end
          | _ => Raises (AttributeError "object has no attribute 'get'")
          end
      end
  end.

(** The store: the request (whose desired state [create] fills in), the
    state of the IAM client, the client calls made so far, oldest first,
    and the records handed to the request's logger. *)
Record Store : Type := mkStore {
  request : ResourceRequest;
  iam : IamClient;
  calls : list (string * dict pyval);
  logger : list string
}.

(** A call [request.aws_client_factory.iam.<operation>] with keyword
    arguments [kwargs]. *)
Definition invoke (operation : string) (kwargs : dict pyval) : Py Store pyval :=
  λ s, let '(o, c) := iam_call operation kwargs (iam s) in
       (o, {| request := request s; iam := c;
              calls := calls s ++ [(operation, kwargs)]; logger := logger s |}).

(** [model[k] = v] on the request's desired state. *)
Definition model_set (k : string) (v : pyval) : Py Store unit :=
  modify (λ s,
    {| request :=
         {| desired_state := dict_set k v (desired_state (request s));
            previous_state := previous_state (request s);
            stack_name := stack_name (request s);
            logical_resource_id := logical_resource_id (request s) |};
       iam := iam s; calls := calls s; logger := logger s |}).

Definition logger_info (msg : string) : Py Store unit :=
  modify (λ s, {| request := request s; iam := iam s; calls := calls s;
                  logger := logger s ++ [msg] |}).

(** Modelled from the spec: [localstack/utils/functions.py] is not among
    the sources and the spec has no word on [call_safe]; it is taken by
    its name and its use here: the call is made and an [Exception] it
    raises is swallowed. *)
Definition call_safe (func : Py Store pyval) : Py Store pyval :=
  try_except func "Exception" (λ _, ret PNone).

(** Lines 51-134. *)
Definition create : Py Store ProgressEvent :=
  req ← gets request;
  let role_name := get "RoleName" (desired_state req) in
  role_name ←
    (if negb (truthy role_name) then
       let role_name :=
         PStr (generate_default_name (stack_name req) (logical_resource_id req)) in
       model_set "RoleName" role_name;; ret role_name
     else ret role_name);
  model ← gets (λ s, desired_state (request s));
  let kwargs :=
    filter (λ kv, kv.1 ∉ ["ManagedPolicyArns"; "Policies"; "AssumeRolePolicyDocument"])
           model in
  policy_document ← lift (subscript model "AssumeRolePolicyDocument");
  create_role_response ←
    invoke "create_role"
           (kwargs ++ [("AssumeRolePolicyDocument", PStr (json_dumps policy_document))]);
  policy_arns ← lift (py_iter (get_default "ManagedPolicyArns" (PList []) model));
  for_each policy_arns
    (λ arn, invoke "attach_role_policy" [("RoleName", role_name); ("PolicyArn", arn)];;
            ret tt);;
  inline_policies ← lift (py_iter (get_default "Policies" (PList []) model));
  for_each inline_policies
    (λ policy,
       match policy with
       | PDict p =>
           let pol_name := get "PolicyName" p in
           doc ← lift (inline_policy_document p);
           model_role_name ← lift (subscript model "RoleName");
           invoke "put_role_policy"
                  [("RoleName", model_role_name); ("PolicyName", pol_name);
                   ("PolicyDocument", PStr doc)];;
           ret tt
       | _ =>
           logger_info ("Invalid format of policy for IAM role " +:+
                        json_dumps (get "RoleName" model))
       end);;
  role ← lift (getitem create_role_response "Role");
  arn ← lift (getitem role "Arn");
  model_set "Arn" arn;;
  role ← lift (getitem create_role_response "Role");
  role_id ← lift (getitem role "RoleId");
  model_set "RoleId" role_id;;
  model ← gets (λ s, desired_state (request s));
  ret {| status := SUCCESS; resource_model := model |}.

(** Lines 151-188. *)
Definition delete : Py Store ProgressEvent :=
  req ← gets request;
  role_name ← lift (subscript (previous_state req) "RoleName");
  attached ← invoke "list_attached_role_policies" [("RoleName", role_name)];
  attached ← lift (get_method attached "AttachedPolicies" (PList []));
  attached ← lift (py_iter attached);
  for_each attached
    (λ policy,
       policy_arn ← lift (getitem policy "PolicyArn");
       call_safe (invoke "detach_role_policy"
                         [("RoleName", role_name); ("PolicyArn", policy_arn)]);;
       ret tt);;
  inline ← invoke "list_role_policies" [("RoleName", role_name)];
  inline ← lift (get_method inline "PolicyNames" (PList []));
  inline ← lift (py_iter inline);
  for_each inline
    (λ inline_policy_name,
       call_safe (invoke "delete_role_policy"
                         [("RoleName", role_name); ("PolicyName", inline_policy_name)]);;
       ret tt);;
  invoke "delete_role" [("RoleName", role_name)];;
  ret {| status := SUCCESS; resource_model := [] |}.

(** The change detection of [update] (lines 210-227); [x and y] is [x]
    when [x] is falsy and [y] otherwise. *)
Definition name_changed (req : ResourceRequest) : outcome pyval :=
  let new_role_name := get "RoleName" (desired_state req) in
  if truthy new_role_name then
    match subscript (previous_state req) "RoleName" with
    | Returns old => Returns (PBool (py_ne new_role_name old))
    | Raises ex => Raises ex
    end
  else Returns new_role_name.

Definition policy_changed (req : ResourceRequest) : pyval :=
  let props_policy := get "AssumeRolePolicyDocument" (desired_state req) in
  if truthy props_policy then
    PBool (py_ne props_policy
                 (get_default "AssumeRolePolicyDocument" (PStr EmptyString) (previous_state req)))
  else props_policy.

Definition managed_policy_arns_changed (req : ResourceRequest) : pyval :=
  PBool (py_ne (get_default "ManagedPolicyArns" (PList []) (desired_state req))
               (get_default "ManagedPolicyArns" (PList []) (previous_state req))).

(** Lines 190-232. *)
Definition update : Py Store ProgressEvent :=
  req ← gets request;
  name_changed ← lift (name_changed req);
  let policy_changed := policy_changed req in
  let managed_policy_arns_changed := managed_policy_arns_changed req in
  if truthy name_changed || truthy policy_changed || truthy managed_policy_arns_changed
  then delete;; create
  else ret {| status := SUCCESS; resource_model := previous_state req |}.

(** The client operations the provider calls. *)
Definition provider_operations : list string :=
  ["create_role"; "attach_role_policy"; "put_role_policy";
   "list_attached_role_policies"; "detach_role_policy";
   "list_role_policies"; "delete_role_policy"; "delete_role"].

(** A computation that leaves the calls made so far in place and adds
    calls of [provider_operations] only. *)
Definition appends_calls {A} (m : Py Store A) : Prop :=
  ∀ s o s', m s = (o, s') →
    ∃ made, calls s' = calls s ++ made ∧
            Forall (λ c, c.1 ∈ provider_operations) made.

(** The desired value of a property differs from the previous one. *)
Definition differs (k : string) (req : ResourceRequest) : bool :=
  py_ne (get k (desired_state req)) (get k (previous_state req)).

(** What [update] takes for a change: a desired role name that is set and
    is not the previous one, a desired trust policy that is set and is
    not the previous one, or managed policy ARNs (none when unset) other
    than the previous ones. *)
Definition replacement_needed (req : ResourceRequest) : bool :=
  let props := desired_state req in
  let _states := previous_state req in
  truthy (get "RoleName" props)
    && py_ne (get "RoleName" props) (get "RoleName" _states)
  || truthy (get "AssumeRolePolicyDocument" props)
     && py_ne (get "AssumeRolePolicyDocument" props)
              (get_default "AssumeRolePolicyDocument" (PStr EmptyString) _states)
  || py_ne (get_default "ManagedPolicyArns" (PList []) props)
           (get_default "ManagedPolicyArns" (PList []) _states).




(** A computation all of whose client calls satisfy [P]. *)
Definition calls_all {A} (P : string * dict pyval → Prop) (m : Py Store A) : Prop :=
  ∀ s o s', m s = (o, s') →
    ∃ made, calls s' = calls s ++ made ∧ Forall P made.

(** The name [create] gives the role: the desired one, or a generated one
    when none is set; and the desired state with that name filled in. *)
Definition chosen_role_name (req : ResourceRequest) : pyval :=
  let role_name := get "RoleName" (desired_state req) in
  if truthy role_name then role_name
  else PStr (generate_default_name (stack_name req) (logical_resource_id req)).

Definition named_model (req : ResourceRequest) : dict pyval :=
  if truthy (get "RoleName" (desired_state req)) then desired_state req
  else dict_set "RoleName" (chosen_role_name req) (desired_state req).

(** The client calls of [create] and those of [delete]. *)
Definition create_operations : list string :=
  ["create_role"; "attach_role_policy"; "put_role_policy"].

Definition delete_operations : list string :=
  ["list_attached_role_policies"; "detach_role_policy";
   "list_role_policies"; "delete_role_policy"; "delete_role"].

(** The calls [create] makes after [create_role]: one per managed policy
    ARN, and one per inline policy that is a dict. *)
Definition attach_call (role_name arn : pyval) : string * dict pyval :=
  ("attach_role_policy", [("RoleName", role_name); ("PolicyArn", arn)]).

Definition put_call (role_name policy : pyval) : option (string * dict pyval) :=
  match policy with
  | PDict p =>
      match inline_policy_document p with
      | Returns doc =>
          Some ("put_role_policy",
                [("RoleName", role_name); ("PolicyName", get "PolicyName" p);
                 ("PolicyDocument", PStr doc)])
      | Raises _ => None
      end
  | _ => None
  end.

(** The policy document of an inline policy before it is encoded: what
    [inline_policy_document] hands to [json.dumps]. *)
Definition inline_policy (policy : dict pyval) : outcome (dict pyval) :=
  match subscript policy "PolicyDocument" with
  | Raises ex => Raises ex
  | Returns raw =>
      match dict_of raw with
      | Raises ex => Raises ex
      | Returns copied =>
          match remove_none_values (PDict copied) with
          | PDict doc =>
              let version := get "Version" doc in
              let doc :=
                dict_set "Version"
                  (if truthy version then version else PStr IAM_POLICY_VERSION) doc in
              match subscript doc "Statement" with
              | Raises ex => Raises ex
              | Returns statements =>
                  match
                    map_outcome filter_statement_resources
                      (match statements with PList sts => sts | _ => [statements] end)
                  with
                  | Raises ex => Raises ex
                  | Returns sts' =>
                      Returns
                        (dict_set "Statement"
                           (match statements with
                            | PList _ => PList sts'
                            | _ => default statements (head sts')
                            end) doc)
                  end
              end
          | _ => Raises (AttributeError "object has no attribute 'get'")
          end
      end
  end.

(** A statement none of whose listed resources is empty. *)
Definition clean_statement (statement : pyval) : Prop :=
  match statement with
  | PDict st =>
      match get "Resource" st with
      | PList rs => Forall (λ r, truthy r = true) rs
      | _ => True
      end
  | _ => False
  end.

Definition clean_statements (statements : pyval) : Prop :=
  match statements with
  | PList sts => Forall clean_statement sts
  | statement => clean_statement statement
  end.

End IAMRoleProvider.
End aws_iam_role.

(** ** In-memory collaborators and sample inputs

    Small implementations of the collaborator classes, on which the
    model runs on concrete inputs. *)

Module inmemory.
Import py asl.

Definition quote : string := String "034"%char EmptyString.

(** A compact JSON printer (strings are printed without escapes, a
    timestamp as its number). *)
#[warnings="-register-all"]
Fixpoint dumps (item_sep key_sep : string) (v : pyval) {struct v} : string :=
  match v with
  | PNone => "null"
  | PBool true => "true"
  | PBool false => "false"
  | PInt n => pretty n
  | PStr s => quote +:+ s +:+ quote
  | PDate t => pretty t
  | PList xs =>
      "[" +:+
      (fix items (xs : list pyval) : string :=
         match xs with
         | [] => EmptyString
         | x :: xs' =>
             dumps item_sep key_sep x +:+
             match xs' with [] => EmptyString | _ => item_sep +:+ items xs' end
         end) xs +:+ "]"
  | PDict d =>
      "{" +:+
      (fix items (d : list (string * pyval)) : string :=
         match d with
         | [] => EmptyString
         | (k, x) :: d' =>
             quote +:+ k +:+ quote +:+ key_sep +:+ dumps item_sep key_sep x +:+
             match d' with [] => EmptyString | _ => item_sep +:+ items d' end
         end) d +:+ "}"
  end.

Definition to_json_str (v : pyval) (separators : option (string * string)) : string :=
  match separators with
  | Some (item_sep, key_sep) => dumps item_sep key_sep v
  | None => dumps ", " ": " v
  end.

(** The events bus: the entries accepted so far, or [None] when the
    endpoint cannot be reached. *)
Definition EndpointConnectionError : PyExc :=
  mkExc "EndpointConnectionError"
        ["BotoCoreError"; "Exception"; "BaseException"]
        "Could not connect to the endpoint URL".

Definition put_events (entries : list execution.PutEventsRequestEntry)
  : Py (option (list execution.PutEventsRequestEntry)) unit :=
  λ bus, match bus with
         | Some accepted => (Returns tt, Some (accepted ++ entries))
         | None => (Raises EndpointConnectionError, None)
         end.

(** A worker that is its environment: it starts with the input as the
    current document, and a stop request ends it as stopped. *)
Definition worker_init (role_arn : execution.Arn) (definition : string)
    (input_data context_object_init : pyval) : outcome Environment :=
  Returns {| program_state := ProgramRunning; inp := input_data; stack := [];
             context_object := [("init", context_object_init)] |}.

Definition worker_stop (stop_date : Timestamp) (cause error : option string)
  : Py Environment unit :=
  modify (λ env, {| program_state := ProgramStopped stop_date error cause;
                    inp := inp env; stack := stack env;
                    context_object := context_object env |}).

Definition collaborators : execution.Collaborators :=
  {| execution.to_json_str := to_json_str;
     execution.time_isoformat := λ t, pretty t;
     execution.ExecutionWorker := Environment;
     execution.ExecutionWorker_init := worker_init;
     execution.ExecutionWorker_start := ret tt;
     execution.ExecutionWorker_stop := worker_stop;
     execution.ExecutionWorker_env := λ env, env;
     execution.EventsClient := option (list execution.PutEventsRequestEntry);
     execution.put_events := put_events;
     execution.entry_str := execution.Detail |}.

Definition machine : execution.StateMachine :=
  {| execution.sm_name := "pass-then-succeed";
     execution.sm_arn := "arn:aws:states:us-east-1:000000000000:stateMachine:pass-then-succeed";
     execution.sm_definition := "StartAt: P; P: Pass -> S; S: Succeed" |}.

Definition document : pyval := PDict [("a", PInt 1)].

Definition an_execution : execution.Execution :=
  execution.__init__ "run-1"
    "arn:aws:iam::000000000000:role/states"
    "arn:aws:states:us-east-1:000000000000:execution:pass-then-succeed:run-1"
    machine 1700000000000000 document None.

(** A freshly constructed execution, with a reachable and with an
    unreachable events endpoint. *)
Definition fresh : execution.World (H := collaborators) :=
  execution.new_world (H := collaborators) an_execution (Some []).

Definition fresh_offline : execution.World (H := collaborators) :=
  execution.new_world (H := collaborators) an_execution None.

(** The environment of a worker whose program has ended, has failed. *)
Definition ended_env : Environment :=
  {| program_state := ProgramEnded; inp := document; stack := [];
     context_object := [] |}.

Definition failed_env : Environment :=
  {| program_state := Errored (Some "States.TaskFailed") (Some "lambda raised");
     inp := document; stack := []; context_object := [] |}.

(** A started execution whose worker has reached the given environment. *)
Definition started_with (client : option (list execution.PutEventsRequestEntry))
    (env : Environment) : execution.World (H := collaborators) :=
  execution.run (H := collaborators)
    [execution.call_start (H := collaborators);
     execution.worker_runs (H := collaborators) 0 env]
    (execution.new_world (H := collaborators) an_execution client).

Definition ended_world : execution.World (H := collaborators) :=
  started_with (Some []) ended_env.

Definition failed_world : execution.World (H := collaborators) :=
  started_with (Some []) failed_env.

(** A started execution whose worker is still running, and one that was
    asked to stop. *)
Definition running_world : execution.World (H := collaborators) :=
  execution.run (H := collaborators) [execution.call_start (H := collaborators)] fresh.

Definition stopped_world : execution.World (H := collaborators) :=
  execution.run (H := collaborators)
    [execution.call_start (H := collaborators);
     execution.call_stop (H := collaborators) 9 (Some "Cancelled") (Some "by user")]
    fresh.

(** A worker that failed with an error document that has no cause. *)
Definition no_cause_env : Environment :=
  {| program_state := ProgramError [("error", Some "States.TaskFailed")];
     inp := document; stack := []; context_object := [] |}.

Definition no_cause_world : execution.World (H := collaborators) :=
  started_with (Some []) no_cause_env.

(** Collaborators whose worker class rejects every definition. *)
Definition rejecting_collaborators : execution.Collaborators :=
  {| execution.to_json_str := to_json_str;
     execution.time_isoformat := λ t, pretty t;
     execution.ExecutionWorker := Environment;
     execution.ExecutionWorker_init := λ _ _ _ _,
       Raises (ValueError "invalid definition");
     execution.ExecutionWorker_start := ret tt;
     execution.ExecutionWorker_stop := worker_stop;
     execution.ExecutionWorker_env := λ env, env;
     execution.EventsClient := option (list execution.PutEventsRequestEntry);
     execution.put_events := put_events;
     execution.entry_str := execution.Detail |}.

Definition fresh_rejecting : execution.World (H := rejecting_collaborators) :=
  execution.new_world (H := rejecting_collaborators) an_execution (Some []).

(** The components of a Task state: parameters are a template pushed as
    it is, the generic conversion reports [States.TaskFailed]. *)
Definition push (v : pyval) : Py Environment unit :=
  modify (λ env, {| program_state := program_state env; inp := inp env;
                    stack := stack env ++ [v];
                    context_object := context_object env |}).

Definition components : state_task.Components :=
  {| state_task.Parameters := pyval;
     state_task.Parameters_eval := push;
     state_task.Resource := string;
     state_task.ExecutionState__from_error := λ ex,
       ret {| state_task.error_name := state_task.StatesErrorName state_task.StatesTaskFailed;
              state_task.event_type := "TaskFailed";
              state_task.event_details :=
                PDict [("taskFailedEventDetails",
                        PDict [("error", PStr "States.TaskFailed");
                               ("cause", PStr (exc_msg ex))])] |} |}.

(** A Task state without [Parameters], evaluated on [document]. *)
Definition task : state_task.StateTask (H := components) :=
  state_task.from_state_props (H := components) None
    "arn:aws:lambda:us-east-1:000000000000:function:f".

Definition task_env : Environment :=
  {| program_state := ProgramRunning; inp := document; stack := [document];
     context_object := [] |}.

(** A Task state of a service integration: three parameters given, two of
    them supported. *)
Definition given_parameters : pyval :=
  PDict [("FunctionName", PStr "f"); ("Payload", document); ("Qualifier", PNone)].

Definition service_task : state_task.StateTask (H := components) :=
  state_task.mkStateTask (H := components) (Some given_parameters)
    "arn:aws:states:::lambda:invoke"
    (Some ({[ "FunctionName"; "Payload" ]} : gset string)).

(** A Task state with [Parameters] and no list of supported ones. *)
Definition plain_task : state_task.StateTask (H := components) :=
  state_task.from_state_props (H := components) (Some given_parameters)
    "arn:aws:lambda:us-east-1:000000000000:function:f".

(** An IAM endpoint that answers every call with the description of one
    role. *)
Definition role_response : pyval :=
  PDict [("Role", PDict [("Arn", PStr "arn:aws:iam::000000000000:role/r");
                         ("RoleId", PStr "AROAEXAMPLE")])].

Definition services : aws_iam_role.Services :=
  {| aws_iam_role.IamClient := unit;
     aws_iam_role.iam_call := λ _ _, ret role_response;
     aws_iam_role.generate_default_name := λ stack_name logical_id,
       stack_name +:+ "-" +:+ logical_id;
     aws_iam_role.remove_none_values := λ v, v;
     aws_iam_role.json_dumps := dumps ", " ": " |}.

Definition trust_policy : pyval :=
  PDict [("Version", PStr "2012-10-17"); ("Statement", PList [])].

Definition store_of (desired previous : dict pyval) : aws_iam_role.Store (H := services) :=
  aws_iam_role.mkStore (H := services)
    {| aws_iam_role.desired_state := desired;
       aws_iam_role.previous_state := previous;
       aws_iam_role.stack_name := "stack";
       aws_iam_role.logical_resource_id := "Role" |}
    tt [] [].

(** The template names no role: the previous state holds the name that
    [create] generated. *)
Definition unnamed_role_update : aws_iam_role.Store (H := services) :=
  store_of [("AssumeRolePolicyDocument", trust_policy)]
           [("AssumeRolePolicyDocument", trust_policy);
            ("RoleName", PStr "stack-Role");
            ("Arn", PStr "arn:aws:iam::000000000000:role/r");
            ("RoleId", PStr "AROAEXAMPLE")].

(** The template renames the role. *)
Definition renamed_role_update : aws_iam_role.Store (H := services) :=
  store_of [("RoleName", PStr "new-name"); ("AssumeRolePolicyDocument", trust_policy)]
           [("RoleName", PStr "old-name"); ("AssumeRolePolicyDocument", trust_policy)].

(** A template without a trust policy. *)
Definition untrusted_role_create : aws_iam_role.Store (H := services) :=
  store_of [("Description", PStr "no trust policy")] [].

(** A template with two managed policies and two inline policies, the
    second of which is no dict; the first has an empty resource string. *)
Definition inline_policy_example : dict pyval :=
  [("PolicyName", PStr "logs");
   ("PolicyDocument",
    PDict [("Statement",
            PList [PDict [("Effect", PStr "Allow");
                          ("Action", PStr "logs:*");
                          ("Resource", PList [PStr "arn:aws:logs:::*";
                                              PStr EmptyString])]])])].

Definition full_role_create : aws_iam_role.Store (H := services) :=
  store_of
    [("RoleName", PStr "app-role");
     ("AssumeRolePolicyDocument", trust_policy);
     ("ManagedPolicyArns",
      PList [PStr "arn:aws:iam::aws:policy/ReadOnlyAccess";
             PStr "arn:aws:iam::aws:policy/AWSLambdaExecute"]);
     ("Policies", PList [PDict inline_policy_example; PStr "not a policy"])]
    [].


(** A previous state that has lost the name of the role. *)
Definition nameless_previous : aws_iam_role.Store (H := services) :=
  store_of [("RoleName", PStr "new-name")] [("Arn", PStr "arn:aws:iam::000000000000:role/r")].



End inmemory.

(** * Properties *)

Ltac py_unfold :=
  unfold mbind, mret, py.Py_bind, py.Py_ret, py.bind, py.ret, py.gets,
    py.modify, py.lift, py.raise, py.try_except in *.

(** ** The monad *)

Section py_proofs.
Import py.
Context {S : Type}.

Lemma bind_returns {A B} (m : Py S A) (k : A → Py S B) s b s' :
  (m ≫= k) s = (Returns b, s') →
  ∃ a s1, m s = (Returns a, s1) ∧ k a s1 = (Returns b, s').
Proof.
  unfold mbind, Py_bind, bind. destruct (m s) as [[a|ex] s1]; [eauto|done].
Qed.

Lemma bind_cases {A B} (m : Py S A) (k : A → Py S B) s o s' :
  (m ≫= k) s = (o, s') →
  (∃ a s1, m s = (Returns a, s1) ∧ k a s1 = (o, s')) ∨
  (∃ ex, m s = (Raises ex, s') ∧ o = Raises ex).
Proof.
  unfold mbind, Py_bind, bind. destruct (m s) as [[a|ex] s1].
  - left. eauto.
  - intros [= <- <-]. right. eauto.
Qed.

Lemma lift_returns {A} (r : outcome A) (s s' : S) a :
  lift r s = (Returns a, s') → r = Returns a ∧ s' = s.
Proof. by intros [= -> ->]. Qed.

End py_proofs.

(** ** The execution *)

Section execution_proofs.
Import py asl execution.
Context `{Collaborators}.

(** Publishing touches the events client and the log only, and lets no
    [Exception] through. *)
Lemma publish_frame (w w' : World) (res : outcome unit) :
  _publish_execution_status_change_event w = (res, w') →
  self w' = self w ∧ heap w' = heap w ∧
  (res = Returns tt ∨ ∃ ex, res = Raises ex ∧ isinstance ex "Exception" = false).
Proof.
  unfold _publish_execution_status_change_event, on_events_client, LOG_exception.
  py_unfold.
  destruct (put_events _ _) as [[[]|ex] client].
  - intros [= <- <-]. simpl. auto.
  - destruct (isinstance ex "Exception") eqn:Hex; intros [= <- <-]; simpl.
    + auto.
    + split_and!; [done..|]. right. by exists ex.
Qed.

Lemma only_mutates_refl fs e : only_mutates fs e e.
Proof. intros f _. by destruct f. Qed.

Lemma only_mutates_trans fs e1 e2 e3 :
  only_mutates fs e1 e2 → only_mutates fs e2 e3 → only_mutates fs e1 e3.
Proof.
  intros H12 H23 f Hf. specialize (H12 f Hf). specialize (H23 f Hf).
  destruct f; simpl in *; congruence.
Qed.

Lemma only_mutates_intro e e' :
  name e' = name e → role_arn e' = role_arn e → exec_arn e' = exec_arn e →
  state_machine e' = state_machine e → start_date e' = start_date e →
  input_data e' = input_data e → input_details e' = input_details e →
  trace_header e' = trace_header e → output_details e' = output_details e →
  only_mutates mutable_fields e e'.
Proof.
  intros ????????? f Hf. destruct f; simpl; try done; exfalso; apply Hf;
    unfold mutable_fields; repeat constructor.
Qed.

Ltac frame_tac := apply only_mutates_intro; simpl; congruence.

Ltac not_listed :=
  let Hin := fresh in
  unfold mutable_fields; intros Hin;
  repeat (apply elem_of_cons in Hin as [?|Hin]; [discriminate|]);
  by apply elem_of_nil in Hin.

Lemma on_worker_step {A} r (m : Py ExecutionWorker A) w o w' :
  on_worker r m w = (o, w') →
  self w' = self w ∧ length (heap w') = length (heap w).
Proof.
  unfold on_worker. destruct (heap w !! r) as [wk|].
  - destruct (m wk) as [o' wk']. intros [= <- <-]. simpl.
    by rewrite length_insert.
  - by intros [= <- <-].
Qed.

Lemma wf_world_same w w' :
  exec_worker (self w') = exec_worker (self w) →
  length (heap w') = length (heap w) →
  wf_world w → wf_world w'.
Proof.
  unfold wf_world. intros -> Hlen. destruct (exec_worker (self w)).
  - by rewrite Hlen.
  - intros Hnil. rewrite Hnil in Hlen. by destruct (heap w').
Qed.

Lemma start_step w o w' :
  start w = (o, w') →
  only_mutates mutable_fields (self w) (self w') ∧ (wf_world w → wf_world w').
Proof.
  unfold start, the_worker, on_worker, alloc, update_self. py_unfold.
  case_bool_decide as Hw.
  { intros [= <- <-]. split; [apply only_mutates_refl|done]. }
  assert (exec_worker (self w) = None) as Hnone.
  { destruct (exec_worker (self w)); [exfalso; eauto|done]. }
  destruct (ExecutionWorker_init _ _ _ _) as [wk|ex]; simpl.
  2: { intros [= <- <-]. split; [apply only_mutates_refl|done]. }
  match goal with |- context [_publish_execution_status_change_event ?w1] =>
    destruct (_publish_execution_status_change_event w1) as [res w2] eqn:Hp
  end.
  apply publish_frame in Hp as (Hs & Hh & _).
  destruct w2 as [e2 h2 c2 l2]. simpl in Hs, Hh. subst e2 h2.
  unfold wf_world. rewrite Hnone.
  destruct res as [[]|ex]; simpl.
  - rewrite lookup_app_r, Nat.sub_diag by done. simpl.
    rewrite lookup_app_r, Nat.sub_diag by done. simpl.
    destruct (ExecutionWorker_start wk) as [o' wk'].
    intros [= <- <-]. simpl. split; [frame_tac|].
    intros ->. done.
  - intros [= <- <-]. simpl. split; [frame_tac|].
    intros ->. done.
Qed.

Lemma stop_step sd err cau w o w' :
  stop sd err cau w = (o, w') →
  only_mutates mutable_fields (self w) (self w') ∧ (wf_world w → wf_world w').
Proof.
  unfold stop. py_unfold. destruct (exec_worker (self w)) as [r|] eqn:Hr.
  - intros (Hs & Hl)%on_worker_step. rewrite Hs. split.
    + apply only_mutates_refl.
    + apply wf_world_same; [by rewrite Hs|done].
  - intros [= <- <-]. split; [apply only_mutates_refl|done].
Qed.

Lemma terminated_step now w o w' :
  terminated now w = (o, w') →
  only_mutates mutable_fields (self w) (self w') ∧ (wf_world w → wf_world w').
Proof.
  unfold terminated, the_worker, update_self. py_unfold.
  destruct (exec_worker (self w)) as [r|] eqn:Hr.
  2: { intros [= <- <-]. split; [apply only_mutates_refl|done]. }
  destruct (heap w !! r) as [wk|] eqn:Hwk.
  2: { intros [= <- <-]. split; [apply only_mutates_refl|done]. }
  simpl.
  assert (∀ w1 : World,
            only_mutates mutable_fields (self w) (self w1) →
            exec_worker (self w1) = exec_worker (self w) →
            length (heap w1) = length (heap w) →
            _publish_execution_status_change_event w1 = (o, w') →
            only_mutates mutable_fields (self w) (self w') ∧
            (wf_world w → wf_world w')) as Hpub.
  { intros w1 Hm Hx Hl (Hs & Hh & _)%publish_frame. rewrite Hs. split; [done|].
    apply wf_world_same; [by rewrite Hs|by rewrite Hh]. }
  destruct (program_state (ExecutionWorker_env wk)) as [| |sd e c|err]; simpl.
  - intros [= <- <-]. simpl. split; [frame_tac|]. by apply wf_world_same.
  - rewrite Hr, Hwk. simpl. apply Hpub; simpl; [frame_tac|done..].
  - apply Hpub; simpl; [frame_tac|done..].
  - destruct (dict_get "error" err) as [v|]; simpl.
    2: { intros [= <- <-]. simpl. split; [frame_tac|]. by apply wf_world_same. }
    destruct (dict_get "cause" err) as [v'|]; simpl.
    2: { intros [= <- <-]. simpl. split; [frame_tac|]. by apply wf_world_same. }
    apply Hpub; simpl; [frame_tac|done..].
Qed.

Lemma exec_call_step c w :
  only_mutates mutable_fields (self w) (self (exec_call c w).2) ∧
  (wf_world w → wf_world (exec_call c w).2).
Proof.
  destruct (exec_call c w) as [o w'] eqn:Hc. simpl. destruct c; simpl in Hc.
  - by eapply start_step.
  - by eapply stop_step.
  - by eapply terminated_step.
  - apply on_worker_step in Hc as (Hs & Hl). rewrite Hs. split.
    + apply only_mutates_refl.
    + apply wf_world_same; [by rewrite Hs|done].
Qed.

Lemma run_steps cs w :
  only_mutates mutable_fields (self w) (self (run cs w)) ∧
  (wf_world w → wf_world (run cs w)).
Proof.
  unfold run. revert w. induction cs as [|c cs IH]; intros w; simpl.
  - split; [apply only_mutates_refl|done].
  - destruct (exec_call_step c w) as [Hm Hwf].
    destruct (IH (exec_call c w).2) as [Hm' Hwf'].
    split; [by eapply only_mutates_trans|auto].
Qed.

(** C1.  When the worker of an execution has ended its program
    ([ProgramEnded]), the completion callback sets the status to
    [SUCCEEDED], the output to the compact JSON encoding of the final
    output value the worker's environment holds ([env.inp]) and the stop
    date to the current time; it returns unless the events client raises
    something that is no [Exception]. *)
Theorem terminated_ended_sets_output (w : World) (now : Timestamp) (r : nat)
    (wk : ExecutionWorker) :
  exec_worker (self w) = Some r →
  heap w !! r = Some wk →
  program_state (ExecutionWorker_env wk) = ProgramEnded →
  let res := (terminated now w).1 in
  let e' := self (terminated now w).2 in
  exec_status e' = Some SUCCEEDED ∧
  output e' = Some (to_json_str (inp (ExecutionWorker_env wk)) compact) ∧
  stop_date e' = Some now ∧
  (res = Returns tt ∨ ∃ ex, res = Raises ex ∧ isinstance ex "Exception" = false).
Proof.
  intros Hr Hwk Hps. unfold terminated, the_worker, update_self. py_unfold.
  rewrite Hr, Hwk, Hps. simpl. rewrite Hr, Hwk. simpl.
  match goal with |- context [_publish_execution_status_change_event ?w1] =>
    destruct (_publish_execution_status_change_event w1) as [res w'] eqn:Hp
  end.
  apply publish_frame in Hp as (Hs & _ & Hres). simpl. rewrite Hs. simpl. done.
Qed.

(** C2.  When the worker of an execution has ended in
    [ProgramError] with an error document that carries [error] and
    [cause], the completion callback sets the status to [FAILED] and the
    execution's error and cause to exactly these two values, and the
    describe output then gives the same two values under ["error"] and
    ["cause"]. *)
Theorem terminated_error_surfaces_in_describe (w : World) (now : Timestamp)
    (r : nat) (wk : ExecutionWorker) (details : dict (option string))
    (err cau : option string) :
  exec_worker (self w) = Some r →
  heap w !! r = Some wk →
  program_state (ExecutionWorker_env wk) = ProgramError details →
  dict_get "error" details = Some err →
  dict_get "cause" details = Some cau →
  let e' := self (terminated now w).2 in
  exec_status e' = Some FAILED ∧ error e' = err ∧ cause e' = cau ∧
  get "error" (to_describe_output e') = opt_str err ∧
  get "cause" (to_describe_output e') = opt_str cau.
Proof.
  intros Hr Hwk Hps Herr Hcau. unfold terminated, the_worker, update_self. py_unfold.
  rewrite Hr, Hwk, Hps. simpl. rewrite Herr. simpl. rewrite Hcau. simpl.
  match goal with |- context [_publish_execution_status_change_event ?w1] =>
    destruct (_publish_execution_status_change_event w1) as [res w'] eqn:Hp
  end.
  apply publish_frame in Hp as (Hs & _ & _). simpl. rewrite Hs.
  unfold to_describe_output. simpl. by destruct err, cau.
Qed.

(** C3.  [start] on an execution that holds a worker raises
    [InvalidName] and changes nothing, so the worker is not replaced; and
    whatever is called on an execution after its construction, at most
    one worker object is ever created for it, the one it holds. *)
Theorem start_twice_is_a_conflict :
  (∀ (w : World) (r : nat),
     exec_worker (self w) = Some r → start w = (Raises InvalidName, w)) ∧
  (∀ name role_arn exec_arn state_machine start_date input_data trace_header
     (client : EventsClient) (cs : list call),
     let w := run cs (new_world (__init__ name role_arn exec_arn state_machine
                                          start_date input_data trace_header)
                                client) in
     (length (heap w) ≤ 1)%nat ∧
     (∀ r, exec_worker (self w) = Some r → r = 0%nat ∧ length (heap w) = 1%nat)).
Proof.
  split.
  - intros w r Hr. unfold start. py_unfold. rewrite Hr.
    rewrite bool_decide_eq_true_2 by eauto. done.
  - intros ????????? w.
    assert (wf_world w) as Hwf by (by apply run_steps).
    unfold wf_world in Hwf. destruct (exec_worker (self w)) as [r|].
    + destruct Hwf as [-> Hl]. split; [lia|]. by intros ? [= <-].
    + rewrite Hwf. split; [simpl; lia|done].
Qed.

(** C4.  [stop] on an execution that holds no worker raises
    [RuntimeError] and leaves the whole store, and with it the status,
    output, error and cause of the execution, as it was. *)
Theorem stop_without_worker_is_an_error (w : World) (sd : Timestamp)
    (err cau : option string) :
  exec_worker (self w) = None →
  stop sd err cau w = (Raises (RuntimeError "No running executions."), w).
Proof. intros Hr. unfold stop. py_unfold. by rewrite Hr. Qed.

(** C7.  When the events client raises an [Exception] on the status
    change entry, publishing returns normally, one record is logged, and
    the execution object (status, output, error and cause included) and
    the workers are as before. *)
Theorem publish_failure_is_logged (w : World) (ex : PyExc) (client : EventsClient) :
  put_events [status_change_entry (self w)] (events_client w) = (Raises ex, client) →
  isinstance ex "Exception" = true →
  _publish_execution_status_change_event w =
    (Returns tt,
     {| self := self w; heap := heap w; events_client := client;
        LOG := LOG w ++ [publish_failure_message (status_change_entry (self w))
                                                 (exec_arn (self w))] |}).
Proof.
  intros Hput Hex.
  unfold _publish_execution_status_change_event, on_events_client, LOG_exception.
  py_unfold. rewrite Hput, Hex. done.
Qed.

(** C8, as amended.  Whatever sequence of [start], [stop] and completion
    callbacks (and steps of the worker) runs on an execution, its name,
    role_arn, exec_arn, state_machine and start_date stay as they were,
    and no attribute is mutated other than exec_status, stop_date,
    output, error, cause and the exec_worker reference. *)
Theorem calls_mutate_status_and_worker_only (cs : list call) (w : World) :
  let e := self w in
  let e' := self (run cs w) in
  (name e' = name e ∧ role_arn e' = role_arn e ∧ exec_arn e' = exec_arn e ∧
   state_machine e' = state_machine e ∧ start_date e' = start_date e) ∧
  only_mutates [f_exec_status; f_stop_date; f_output; f_error; f_cause; f_exec_worker]
               e e'.
Proof.
  intros e e'. destruct (run_steps cs w) as [Hm _]. split; [|done].
  split_and!.
  - apply (Hm f_name). not_listed.
  - apply (Hm f_role_arn). not_listed.
  - apply (Hm f_exec_arn). not_listed.
  - apply (Hm f_state_machine). not_listed.
  - apply (Hm f_start_date). not_listed.
Qed.

(** C9.  The describe output has the keys ["output"] and
    ["outputDetails"] exactly when the status is [SUCCEEDED], the key
    ["error"] exactly when the error is not [None] and the key ["cause"]
    exactly when the cause is not [None]; a [FAILED] or [ABORTED]
    execution has no ["output"] key. *)
Theorem describe_output_optional_fields (e : Execution) :
  let d := to_describe_output e in
  (is_Some (dict_get "output" d) ↔ exec_status e = Some SUCCEEDED) ∧
  (is_Some (dict_get "outputDetails" d) ↔ exec_status e = Some SUCCEEDED) ∧
  (is_Some (dict_get "error" d) ↔ error e ≠ None) ∧
  (is_Some (dict_get "cause" d) ↔ cause e ≠ None) ∧
  (exec_status e = Some FAILED ∨ exec_status e = Some ABORTED →
   dict_get "output" d = None).
Proof.
  unfold to_describe_output.
  destruct e as [n ra ea sm sd i idt th [st|] spd out od [err|] [cau|] wk];
    try destruct st; cbn; rewrite <- !not_eq_None_Some;
    (split_and!; [split; congruence..|intros [?|?]; congruence]).
Qed.

End execution_proofs.

(** *** The execution on the sample inputs *)

Section execution_examples.
Import py asl execution inmemory.

(** The sample execution, its program ended on [{a: 1}], completes at time 5. *)
Lemma terminated_ended_sets_output_witness :
  exec_status (self (terminated (H := collaborators) 5 ended_world).2) = Some SUCCEEDED ∧
  output (self (terminated (H := collaborators) 5 ended_world).2)
    = Some (inmemory.to_json_str document compact) ∧
  stop_date (self (terminated (H := collaborators) 5 ended_world).2) = Some 5 ∧
  ((terminated (H := collaborators) 5 ended_world).1 = Returns tt ∨
   ∃ ex, (terminated (H := collaborators) 5 ended_world).1 = Raises ex ∧
         isinstance ex "Exception" = false).
Proof.
  apply (terminated_ended_sets_output (H := collaborators) ended_world 5 0%nat ended_env);
    vm_compute; reflexivity.
Defined.

(** The sample execution, its task failed, completes at time 5. *)
Lemma terminated_error_surfaces_in_describe_witness :
  exec_status (self (terminated (H := collaborators) 5 failed_world).2) = Some FAILED ∧
  error (self (terminated (H := collaborators) 5 failed_world).2)
    = Some "States.TaskFailed" ∧
  cause (self (terminated (H := collaborators) 5 failed_world).2)
    = Some "lambda raised" ∧
  get "error" (to_describe_output (H := collaborators)
                 (self (terminated (H := collaborators) 5 failed_world).2))
    = PStr "States.TaskFailed" ∧
  get "cause" (to_describe_output (H := collaborators)
                 (self (terminated (H := collaborators) 5 failed_world).2))
    = PStr "lambda raised".
Proof.
  apply (terminated_error_surfaces_in_describe (H := collaborators) failed_world 5 0%nat
           failed_env
           [("error", Some "States.TaskFailed"); ("cause", Some "lambda raised")]
           (Some "States.TaskFailed") (Some "lambda raised"));
    vm_compute; reflexivity.
Defined.

(** A second [start] of the sample execution. *)
Lemma start_twice_is_a_conflict_witness :
  start (H := collaborators) ended_world = (Raises InvalidName, ended_world).
Proof.
  apply (proj1 (start_twice_is_a_conflict (H := collaborators)) ended_world 0%nat).
  vm_compute. reflexivity.
Defined.

(** [stop] on the sample execution before any [start]. *)
Lemma stop_without_worker_is_an_error_witness :
  stop (H := collaborators) 5 None None fresh
  = (Raises (RuntimeError "No running executions."), fresh).
Proof.
  apply (stop_without_worker_is_an_error (H := collaborators) fresh 5 None None).
  reflexivity.
Defined.

(** Publishing while the events endpoint cannot be reached. *)
Lemma publish_failure_is_logged_witness :
  _publish_execution_status_change_event (H := collaborators) fresh_offline
  = (Returns tt,
     mkWorld (H := collaborators) an_execution [] None
       [publish_failure_message (H := collaborators)
          (status_change_entry (H := collaborators) an_execution)
          (exec_arn an_execution)]).
Proof.
  apply (publish_failure_is_logged (H := collaborators) fresh_offline
           EndpointConnectionError None); vm_compute; reflexivity.
Defined.

(** C8, as stated, fails: [start] assigns the [exec_worker] attribute,
    which is none of status, stop_date, output, error and cause. *)
Lemma start_mutates_exec_worker :
  ¬ only_mutates [f_exec_status; f_stop_date; f_output; f_error; f_cause]
      (self fresh) (self (start (H := collaborators) fresh).2).
Proof.
  intros Hclaim. specialize (Hclaim f_exec_worker).
  assert (f_exec_worker ∉ [f_exec_status; f_stop_date; f_output; f_error; f_cause])
    as Hout.
  { intros Hin.
    repeat (apply elem_of_cons in Hin as [?|Hin]; [discriminate|]).
    by apply elem_of_nil in Hin. }
  specialize (Hclaim Hout). vm_compute in Hclaim. discriminate Hclaim.
Qed.

End execution_examples.

(** ** The Task state *)

Section state_task_proofs.
Import py asl state_task.
Context `{Components}.

(** C5.  An exception that is a [TimeoutError] is converted to the
    failure event named [States.Timeout] with the [TaskTimedOut] history
    event type; every other exception is handed to the generic conversion
    of [ExecutionState]. *)
Theorem from_error_timeout_or_generic (self : StateTask) (ex : PyExc) (env : Environment) :
  (isinstance ex "TimeoutError" = true →
   ∃ failure,
     _from_error self ex env = (Returns failure, env) ∧
     error_name failure = StatesErrorName StatesTimeout ∧
     error_name_str (error_name failure) = "States.Timeout" ∧
     event_type failure = TaskTimedOut) ∧
  (isinstance ex "TimeoutError" = false →
   _from_error self ex env = ExecutionState__from_error ex env).
Proof.
  unfold _from_error. split; intros ->.
  - by eexists.
  - done.
Qed.

(** C6, as amended.  For a Task state without [Parameters], the
    parameters document is the empty dict, whatever the current input and
    the stack hold, and the environment is left as it was. *)
Theorem eval_parameters_absent_is_empty (self : StateTask) (env : Environment) :
  parameters self = None →
  _eval_parameters self env = (Returns (PDict []), env).
Proof.
  intros Hp. unfold _eval_parameters. py_unfold. rewrite Hp.
  destruct (_get_supported_parameters self) as [supported|]; [|done].
  by case_bool_decide.
Qed.

End state_task_proofs.

Section state_task_examples.
Import py asl state_task inmemory.

(** The conversion of a [TimeoutError]. *)
Lemma from_error_timeout_or_generic_witness :
  ∃ failure,
    _from_error (H := components) task (TimeoutError "timed out") task_env
    = (Returns failure, task_env) ∧
    error_name failure = StatesErrorName StatesTimeout ∧
    error_name_str (error_name failure) = "States.Timeout" ∧
    event_type failure = TaskTimedOut.
Proof.
  apply (from_error_timeout_or_generic (H := components) task
           (TimeoutError "timed out") task_env).
  reflexivity.
Defined.

(** C6, as stated, fails: without [Parameters] the document is [{}], not
    the input [{"a": 1}] on top of the stack. *)
Lemma eval_parameters_absent_is_not_identity :
  ¬ (parameters task = None →
     ∀ v, last (stack task_env) = Some v →
          inp task_env = v →
          (_eval_parameters (H := components) task task_env).1 = Returns v).
Proof.
  intros Hclaim. specialize (Hclaim eq_refl document eq_refl eq_refl).
  vm_compute in Hclaim. discriminate Hclaim.
Qed.

(** The sample Task state, which has no [Parameters]. *)
Lemma eval_parameters_absent_is_empty_witness :
  _eval_parameters (H := components) task task_env = (Returns (PDict []), task_env).
Proof.
  apply (eval_parameters_absent_is_empty (H := components) task task_env).
  reflexivity.
Defined.

End state_task_examples.

(** ** The IAM role provider *)

Section aws_iam_role_proofs.
Import py aws_iam_role.
Context `{Services}.

Lemma appends_ret {A} (a : A) : appends_calls (mret a).
Proof. intros s o s' [= <- <-]. exists []. by rewrite app_nil_r. Qed.

Lemma appends_raise {A} ex : appends_calls (raise (A := A) ex).
Proof. intros s o s' [= <- <-]. exists []. by rewrite app_nil_r. Qed.

Lemma appends_lift {A} (r : outcome A) : appends_calls (lift r).
Proof. intros s o s' [= <- <-]. exists []. by rewrite app_nil_r. Qed.

Lemma appends_gets {A} (f : Store → A) : appends_calls (gets f).
Proof. intros s o s' [= <- <-]. exists []. by rewrite app_nil_r. Qed.

Lemma appends_model_set k v : appends_calls (model_set k v).
Proof. intros s o s' [= <- <-]. exists []. by rewrite app_nil_r. Qed.

Lemma appends_logger_info msg : appends_calls (logger_info msg).
Proof. intros s o s' [= <- <-]. exists []. by rewrite app_nil_r. Qed.

Lemma invoke_calls operation kwargs s o s' :
  invoke operation kwargs s = (o, s') → calls s' = calls s ++ [(operation, kwargs)].
Proof.
  unfold invoke. destruct (iam_call operation kwargs (iam s)) as [o' c].
  by intros [= <- <-].
Qed.

Lemma appends_invoke operation kwargs :
  operation ∈ provider_operations → appends_calls (invoke operation kwargs).
Proof.
  intros Hop s o s' Hcall%invoke_calls.
  exists [(operation, kwargs)]. split; [done|]. by constructor.
Qed.

Lemma appends_bind {A B} (m : Py Store A) (k : A → Py Store B) :
  appends_calls m → (∀ a, appends_calls (k a)) → appends_calls (m ≫= k).
Proof.
  intros Hm Hk s o s' [(a & s1 & Hms & Hks)|(ex & Hms & ->)]%bind_cases.
  - destruct (Hm _ _ _ Hms) as (t1 & Heq1 & Ht1).
    destruct (Hk a _ _ _ Hks) as (t2 & Heq2 & Ht2).
    exists (t1 ++ t2). split; [|by apply Forall_app].
    by rewrite Heq2, Heq1, (assoc_L (++)).
  - by apply Hm in Hms.
Qed.

Lemma appends_for_each {A} (xs : list A) (body : A → Py Store unit) :
  (∀ x, appends_calls (body x)) → appends_calls (for_each xs body).
Proof.
  intros Hbody. induction xs as [|x xs IH]; simpl.
  - apply (appends_ret tt).
  - apply (appends_bind (body x) (λ _, for_each xs body)); auto.
Qed.

Lemma appends_call_safe (func : Py Store pyval) :
  appends_calls func → appends_calls (call_safe func).
Proof.
  intros Hf s o s'. unfold call_safe, try_except.
  destruct (func s) as [[a|ex] s1] eqn:Hfs.
  - intros [= <- <-]. eauto.
  - destruct (isinstance ex "Exception"); intros [= <- <-]; eauto.
Qed.

Ltac in_operations := unfold provider_operations; repeat constructor.

(** Follows the shape of a computation down to its client calls. *)
Ltac appends :=
  repeat first
    [ apply appends_bind; [|intros ?]
    | apply appends_invoke; in_operations
    | apply appends_for_each; intros ?
    | apply appends_call_safe
    | apply appends_ret | apply appends_raise | apply appends_lift
    | apply appends_gets | apply appends_model_set | apply appends_logger_info
    | match goal with |- appends_calls (if ?b then _ else _) => destruct b end
    | match goal with |- appends_calls (match ?v with _ => _ end) => destruct v end ].

Lemma appends_update : appends_calls update.
Proof. unfold update. appends. Qed.

(** A [delete] that returns has called [delete_role] last, on the role
    the previous state names. *)
Lemma delete_calls s event s' :
  delete s = (Returns event, s') →
  ∃ role_name before,
    dict_get "RoleName" (previous_state (request s)) = Some role_name ∧
    calls s' = calls s ++ before ++ [("delete_role", [("RoleName", role_name)])].
Proof.
  unfold delete.
  intros (req & s1 & [= <- <-] & Hrest)%bind_returns.
  apply bind_returns in Hrest as (role_name & s1 & [Hname ->]%lift_returns & Hrest).
  apply bind_returns in Hrest as (a1 & s1 & Hc1%invoke_calls & Hrest).
  apply bind_returns in Hrest as (a2 & s2 & [_ ->]%lift_returns & Hrest).
  apply bind_returns in Hrest as (a3 & s2 & [_ ->]%lift_returns & Hrest).
  apply bind_returns in Hrest as ([] & s2 & Hc2 & Hrest).
  apply bind_returns in Hrest as (a4 & s3 & Hc3%invoke_calls & Hrest).
  apply bind_returns in Hrest as (a5 & s4 & [_ ->]%lift_returns & Hrest).
  apply bind_returns in Hrest as (a6 & s4 & [_ ->]%lift_returns & Hrest).
  apply bind_returns in Hrest as ([] & s4 & Hc4 & Hrest).
  apply bind_returns in Hrest as (a7 & s5 & Hc5%invoke_calls & [= _ <-]).
  apply appends_for_each in Hc2 as (t2 & Hc2 & _); [|intros ?; appends].
  apply appends_for_each in Hc4 as (t4 & Hc4 & _); [|intros ?; appends].
  unfold subscript in Hname.
  destruct (dict_get "RoleName" (previous_state (request s))) as [n|]; [|done].
  injection Hname as ->.
  exists role_name, ([("list_attached_role_policies", [("RoleName", role_name)])]
                     ++ t2 ++ [("list_role_policies", [("RoleName", role_name)])] ++ t4).
  split; [done|].
  rewrite Hc5, Hc4, Hc3, Hc2, Hc1. by simplify_list_eq.
Qed.

(** The first client call of [create] is [create_role]. *)
Lemma create_calls s event s' :
  create s = (Returns event, s') →
  ∃ kwargs after, calls s' = calls s ++ ("create_role", kwargs) :: after.
Proof.
  unfold create.
  intros (req & s1 & [= <- <-] & Hrest)%bind_returns.
  apply bind_returns in Hrest as (role_name & s1 & Hdefault & Hrest).
  assert (calls s1 = calls s) as Hs1.
  { destruct (negb _); [|by injection Hdefault as _ <-].
    by apply bind_returns in Hdefault as ([] & s0 & [= <-] & [= _ <-]). }
  apply bind_returns in Hrest as (model & s2 & [= <- <-] & Hrest).
  apply bind_returns in Hrest as (doc & s2 & [_ ->]%lift_returns & Hrest).
  apply bind_returns in Hrest as (response & s2 & Hc%invoke_calls & Hrest).
  match type of Hrest with ?m s2 = _ => assert (appends_calls m) as Happ by appends end.
  apply Happ in Hrest as (after & Hafter & _).
  eexists _, after. by rewrite Hafter, Hc, Hs1, <- (assoc_L (++)).
Qed.

Lemma name_changed_truthy req old_name changed :
  dict_get "RoleName" (previous_state req) = Some old_name →
  name_changed req = Returns changed →
  truthy changed =
    truthy (get "RoleName" (desired_state req))
    && py_ne (get "RoleName" (desired_state req)) (get "RoleName" (previous_state req)).
Proof.
  unfold name_changed, subscript, get, get_default. intros ->. simpl.
  destruct (truthy (default PNone (dict_get "RoleName" (desired_state req)))) eqn:Ht.
  - by intros [= <-].
  - intros [= <-]. by rewrite Ht.
Qed.

Lemma policy_changed_truthy req :
  truthy (policy_changed req) =
    truthy (get "AssumeRolePolicyDocument" (desired_state req))
    && py_ne (get "AssumeRolePolicyDocument" (desired_state req))
             (get_default "AssumeRolePolicyDocument" (PStr EmptyString) (previous_state req)).
Proof.
  unfold policy_changed.
  destruct (truthy (get "AssumeRolePolicyDocument" (desired_state req))) eqn:Ht; [done|].
  by rewrite Ht.
Qed.

Lemma update_decision s old_name :
  dict_get "RoleName" (previous_state (request s)) = Some old_name →
  update s =
    if replacement_needed (request s) then (delete;; create) s
    else (Returns {| status := SUCCESS;
                     resource_model := previous_state (request s) |}, s).
Proof.
  intros Hold. unfold update. py_unfold.
  destruct (name_changed (request s)) as [changed|ex] eqn:Hn.
  - rewrite (name_changed_truthy _ _ _ Hold Hn), policy_changed_truthy.
    unfold replacement_needed. simpl.
    by destruct (_ || _).
  - exfalso. unfold name_changed, subscript in Hn. rewrite Hold in Hn.
    by destruct (truthy _).
Qed.

(** C10, as amended.  For a role whose previous state holds its name:
    when the desired RoleName is set and differs from the previous one,
    or the desired AssumeRolePolicyDocument is set and differs from the
    previous one, or the ManagedPolicyArns (none when unset) differ,
    [update] runs [delete] and then [create], and when it returns it has
    called [delete_role] on the previous name and [create_role] right
    after; otherwise it returns success with the previous state and
    makes no call.  In no case does it call a client operation other than
    those of [create] and [delete]: a role is never updated in place. *)
Theorem update_replaces_or_keeps (s : Store) (old_name : pyval) :
  dict_get "RoleName" (previous_state (request s)) = Some old_name →
  (replacement_needed (request s) = false →
   update s = (Returns {| status := SUCCESS;
                          resource_model := previous_state (request s) |}, s)) ∧
  (replacement_needed (request s) = true →
   update s = (delete;; create) s ∧
   ∀ event s', update s = (Returns event, s') →
     ∃ before kwargs after,
       calls s' = calls s ++ before ++
                  ("delete_role", [("RoleName", old_name)]) ::
                  ("create_role", kwargs) :: after) ∧
  (∃ made, calls (update s).2 = calls s ++ made ∧
           Forall (λ c, c.1 ∈ provider_operations) made).
Proof.
  intros Hold. split_and!.
  - intros Hno. by rewrite (update_decision _ _ Hold), Hno.
  - intros Hyes. rewrite (update_decision _ _ Hold), Hyes. split; [done|].
    intros event s' (deleted & s1 & Hdel & Hcre)%bind_returns.
    apply delete_calls in Hdel as (role_name & before & Hname & Hdel).
    apply create_calls in Hcre as (kwargs & after & Hcre).
    rewrite Hold in Hname. injection Hname as <-.
    exists before, kwargs, after.
    rewrite Hcre, Hdel. by simplify_list_eq.
  - destruct (update s) as [o s'] eqn:Hup. by apply appends_update in Hup.
Qed.

End aws_iam_role_proofs.

Section aws_iam_role_examples.
Import py aws_iam_role inmemory.

(** C10, as stated, fails: the template names no role and the previous
    state holds the generated name, so the desired RoleName differs from
    the previous one, yet [update] does not run [delete] and [create]. *)
Lemma update_keeps_role_when_name_unset :
  ¬ (differs "RoleName" (request unnamed_role_update) = true ∨
     differs "AssumeRolePolicyDocument" (request unnamed_role_update) = true ∨
     differs "ManagedPolicyArns" (request unnamed_role_update) = true →
     update (H := services) unnamed_role_update
     = (delete (H := services);; create (H := services)) unnamed_role_update).
Proof.
  intros Hclaim. specialize (Hclaim (or_introl eq_refl)).
  vm_compute in Hclaim. discriminate Hclaim.
Qed.

(** The update that renames the role from [old-name] to [new-name]. *)
Lemma update_replaces_or_keeps_witness :
  update (H := services) renamed_role_update
  = (delete (H := services);; create (H := services)) renamed_role_update ∧
  ∀ event s', update (H := services) renamed_role_update = (Returns event, s') →
    ∃ before kwargs after,
      calls s' = calls renamed_role_update ++ before ++
                 ("delete_role", [("RoleName", PStr "old-name")]) ::
                 ("create_role", kwargs) :: after.
Proof.
  apply (update_replaces_or_keeps (H := services) renamed_role_update (PStr "old-name")).
  - reflexivity.
  - vm_compute. reflexivity.
Defined.

End aws_iam_role_examples.

(** ** More on the execution *)

Section execution_more.
Import py asl execution.
Context `{Collaborators}.

(** What publishing does, case by case of what the events client does. *)
Lemma publish_result (w : World) :
  _publish_execution_status_change_event w =
    match put_events [status_change_entry (self w)] (events_client w) with
    | (Returns _, client) =>
        (Returns tt, mkWorld (self w) (heap w) client (LOG w))
    | (Raises ex, client) =>
        if isinstance ex "Exception"
        then (Returns tt,
              mkWorld (self w) (heap w) client
                (LOG w ++ [publish_failure_message (status_change_entry (self w))
                                                   (exec_arn (self w))]))
        else (Raises ex, mkWorld (self w) (heap w) client (LOG w))
    end.
Proof.
  unfold _publish_execution_status_change_event, on_events_client, LOG_exception.
  py_unfold. destruct (put_events _ _) as [[[]|ex] client]; [done|].
  by destruct (isinstance ex "Exception").
Qed.

Lemma start_unfold (w : World) :
  exec_worker (self w) = None →
  start w =
    match ExecutionWorker_init (role_arn (self w)) (sm_definition (state_machine (self w)))
            (input_data (self w)) (context_object_init (self w)) with
    | Raises ex => (Raises ex, w)
    | Returns wk =>
        let n := length (heap w) in
        match _publish_execution_status_change_event
                (mkWorld (running_with n (self w)) (heap w ++ [wk])
                         (events_client w) (LOG w)) with
        | (Returns _, w1) =>
            ((ExecutionWorker_start wk).1,
             mkWorld (running_with n (self w))
                     (heap w ++ [(ExecutionWorker_start wk).2])
                     (events_client w1) (LOG w1))
        | (Raises ex, w1) => (Raises ex, w1)
        end
    end.
Proof.
  intros Hnone. unfold start, the_worker, on_worker, alloc, update_self, context_object_init.
  py_unfold. rewrite Hnone. rewrite bool_decide_eq_false_2 by (by intros [? [=]]).
  destruct (ExecutionWorker_init _ _ _ _) as [wk|ex]; [|done]. simpl.
  fold (running_with (length (heap w)) (self w)).
  rewrite publish_result. simpl.
  destruct (put_events _ _) as [[[]|ex] client]; simpl.
  - rewrite lookup_app_r, Nat.sub_diag by done. simpl.
    rewrite lookup_app_r, Nat.sub_diag by done. simpl.
    destruct (ExecutionWorker_start wk) as [o wk']. simpl.
    by rewrite insert_app_r_alt, Nat.sub_diag by done.
  - destruct (isinstance ex "Exception"); [|done]. simpl.
    rewrite lookup_app_r, Nat.sub_diag by done. simpl.
    rewrite lookup_app_r, Nat.sub_diag by done. simpl.
    destruct (ExecutionWorker_start wk) as [o wk']. simpl.
    by rewrite insert_app_r_alt, Nat.sub_diag by done.
Qed.


(** X1.  When the worker constructor raises, [start] raises the same
    exception and leaves the store as it was: no worker is attached, the
    status is not set and nothing is published, so [start] can be called
    again. *)
Theorem start_constructor_failure_changes_nothing (w : World) (ex : PyExc) :
  exec_worker (self w) = None →
  ExecutionWorker_init (role_arn (self w)) (sm_definition (state_machine (self w)))
    (input_data (self w)) (context_object_init (self w)) = Raises ex →
  start w = (Raises ex, w).
Proof. intros Hnone Hinit. by rewrite start_unfold, Hinit. Qed.

(** X2.  Once the worker constructor has returned, [start] leaves the
    execution [RUNNING] with the new worker attached and has offered
    exactly the notification of that state to the events client, whether
    or not publishing or the worker's [start] then fails; a second [start]
    is refused with [InvalidName]. *)
Theorem start_attaches_worker_first (w : World) (wk : ExecutionWorker) :
  exec_worker (self w) = None →
  ExecutionWorker_init (role_arn (self w)) (sm_definition (state_machine (self w)))
    (input_data (self w)) (context_object_init (self w)) = Returns wk →
  let w' := (start w).2 in
  let running := running_with (length (heap w)) (self w) in
  self w' = running ∧
  length (heap w') = Datatypes.S (length (heap w)) ∧
  events_client w' = (put_events [status_change_entry running] (events_client w)).2 ∧
  start w' = (Raises InvalidName, w').
Proof.
  intros Hnone Hinit. simpl.
  assert (∀ w' : World, self w' = running_with (length (heap w)) (self w) →
            start w' = (Raises InvalidName, w')) as Hagain.
  { intros w' Hs. unfold start. py_unfold. rewrite Hs.
    by rewrite bool_decide_eq_true_2 by (simpl; eauto). }
  rewrite start_unfold, Hinit by done. simpl. rewrite publish_result. simpl.
  destruct (put_events _ _) as [[[]|ex] client]; simpl.
  - rewrite length_app. simpl. split_and!; [done|lia|done|by apply Hagain].
  - destruct (isinstance ex "Exception"); simpl; rewrite length_app; simpl;
      (split_and!; [done|lia|done|by apply Hagain]).
Qed.

(** X3.  When the events client returns or raises an [Exception],
    [start] goes on to start the worker and ends as the worker's [start]
    ends; a failed notification costs one log record and nothing else. *)
Theorem start_outcome_is_the_workers (w : World) (wk : ExecutionWorker)
    (res : outcome unit) (client : EventsClient) :
  exec_worker (self w) = None →
  ExecutionWorker_init (role_arn (self w)) (sm_definition (state_machine (self w)))
    (input_data (self w)) (context_object_init (self w)) = Returns wk →
  let running := running_with (length (heap w)) (self w) in
  put_events [status_change_entry running] (events_client w) = (res, client) →
  (∀ ex, res = Raises ex → isinstance ex "Exception" = true) →
  start w =
    ((ExecutionWorker_start wk).1,
     mkWorld running (heap w ++ [(ExecutionWorker_start wk).2]) client
       (LOG w ++ match res with
                 | Returns _ => []
                 | Raises _ => [publish_failure_message (status_change_entry running)
                                                        (exec_arn (self w))]
                 end)).
Proof.
  intros Hnone Hinit running Hput Hexc.
  rewrite start_unfold, Hinit by done. simpl. rewrite publish_result. simpl.
  fold running. rewrite Hput. destruct res as [[]|ex]; simpl.
  - by rewrite app_nil_r.
  - by rewrite (Hexc ex eq_refl).
Qed.

(** X4.  On [ProgramStopped] the completion callback sets [ABORTED] and
    the stop date to the time of the callback; the stop date, error and
    cause the stop request carried are not recorded: output, error and
    cause stay as they were. *)
Theorem terminated_stopped_is_aborted (w : World) (now : Timestamp) (r : nat)
    (wk : ExecutionWorker) (requested : Timestamp) (err cau : option string) :
  exec_worker (self w) = Some r →
  heap w !! r = Some wk →
  program_state (ExecutionWorker_env wk) = ProgramStopped requested err cau →
  let e' := self (terminated now w).2 in
  exec_status e' = Some ABORTED ∧ stop_date e' = Some now ∧
  output e' = output (self w) ∧ error e' = error (self w) ∧ cause e' = cause (self w).
Proof.
  intros Hr Hwk Hps. unfold terminated, the_worker, update_self. py_unfold.
  rewrite Hr, Hwk, Hps. simpl. rewrite publish_result. simpl.
  destruct (put_events _ _) as [[[]|ex] client]; [done|].
  by destruct (isinstance ex "Exception").
Qed.

(** X5.  On a program state the callback has no branch for (the
    program is still running) it raises [RuntimeWarning]; by then the
    stop date has been assigned, the status is as it was and nothing is
    published. *)
Theorem terminated_unsupported_state (w : World) (now : Timestamp) (r : nat)
    (wk : ExecutionWorker) :
  exec_worker (self w) = Some r →
  heap w !! r = Some wk →
  program_state (ExecutionWorker_env wk) = ProgramRunning →
  ∃ ex,
    terminated now w =
      (Raises ex,
       mkWorld (set_stop_date (Some now) (self w)) (heap w) (events_client w) (LOG w)) ∧
    exc_class ex = "RuntimeWarning".
Proof.
  intros Hr Hwk Hps. unfold terminated, the_worker, update_self. py_unfold.
  rewrite Hr, Hwk, Hps. simpl. by eexists.
Qed.

(** X6.  On [ProgramError] with an error document that lacks a key the
    callback raises [KeyError] for that key, after the status [FAILED]
    (and the error, when only the cause is missing) has been assigned;
    nothing is published. *)
Theorem terminated_error_missing_key (w : World) (now : Timestamp) (r : nat)
    (wk : ExecutionWorker) (details : dict (option string)) :
  exec_worker (self w) = Some r →
  heap w !! r = Some wk →
  program_state (ExecutionWorker_env wk) = ProgramError details →
  let failed := set_exec_status (Some FAILED) (set_stop_date (Some now) (self w)) in
  (dict_get "error" details = None →
   terminated now w =
     (Raises (KeyError "error"),
      mkWorld failed (heap w) (events_client w) (LOG w))) ∧
  (∀ err, dict_get "error" details = Some err → dict_get "cause" details = None →
   terminated now w =
     (Raises (KeyError "cause"),
      mkWorld (set_error err failed) (heap w) (events_client w) (LOG w))).
Proof.
  intros Hr Hwk Hps. unfold terminated, the_worker, update_self. py_unfold.
  rewrite Hr, Hwk, Hps. simpl. split.
  - by intros ->.
  - by intros err -> ->.
Qed.

(** X7.  For each program state the callback has a branch for, the
    notification it offers to the events client is built from the
    execution as the callback leaves it, final status included. *)
Theorem terminated_publishes_what_it_leaves (w : World) (now : Timestamp) (r : nat)
    (wk : ExecutionWorker) (st : ExecutionStatus) :
  exec_worker (self w) = Some r →
  heap w !! r = Some wk →
  final_status (program_state (ExecutionWorker_env wk)) = Some st →
  (∀ details, program_state (ExecutionWorker_env wk) = ProgramError details →
              is_Some (dict_get "error" details) ∧ is_Some (dict_get "cause" details)) →
  let w' := (terminated now w).2 in
  exec_status (self w') = Some st ∧
  events_client w' =
    (put_events [status_change_entry (self w')] (events_client w)).2.
Proof.
  intros Hr Hwk Hst Hkeys. unfold terminated, the_worker, update_self. py_unfold.
  rewrite Hr, Hwk. simpl.
  destruct (program_state (ExecutionWorker_env wk)) as [| |sd e c|details] eqn:Hps;
    simpl in *; simplify_eq.
  - rewrite Hr, Hwk. simpl. rewrite publish_result. simpl.
    destruct (put_events _ _) as [[[]|ex] client] eqn:Hput; simpl;
      [by rewrite Hput|].
    destruct (isinstance ex "Exception"); simpl; by rewrite Hput.
  - rewrite publish_result. simpl.
    destruct (put_events _ _) as [[[]|ex] client] eqn:Hput; simpl;
      [by rewrite Hput|].
    destruct (isinstance ex "Exception"); simpl; by rewrite Hput.
  - destruct (Hkeys details eq_refl) as [[err ->] [cau ->]]. simpl.
    rewrite publish_result. simpl.
    destruct (put_events _ _) as [[[]|ex] client] eqn:Hput; simpl;
      [by rewrite Hput|].
    destruct (isinstance ex "Exception"); simpl; by rewrite Hput.
Qed.

(** X8.  [stop] assigns no attribute of the execution and publishes
    nothing: the status stays what it was until the worker calls back. *)
Theorem stop_changes_no_attribute (w : World) (sd : Timestamp) (err cau : option string) :
  let w' := (stop sd err cau w).2 in
  self w' = self w ∧ events_client w' = events_client w ∧ LOG w' = LOG w ∧
  length (heap w') = length (heap w).
Proof.
  unfold stop, on_worker. py_unfold. simpl.
  destruct (exec_worker (self w)) as [r|]; [|done].
  destruct (heap w !! r) as [wk|]; [|done].
  destruct (ExecutionWorker_stop sd cau err wk) as [o wk']. simpl.
  by rewrite length_insert.
Qed.


Ltac publish_cases :=
  rewrite publish_result; simpl;
  destruct (put_events _ _) as [[[]|?ex] ?client]; simpl;
  [|destruct (isinstance _ "Exception"); simpl].

Lemma stop_self (w : World) (sd : Timestamp) (err cau : option string) :
  self (stop sd err cau w).2 = self w.
Proof.
  unfold stop, on_worker. py_unfold.
  destruct (exec_worker (self w)) as [r|]; [|done].
  destruct (heap w !! r) as [wk|]; [|done].
  by destruct (ExecutionWorker_stop sd cau err wk).
Qed.

Lemma lifecycle_status (e : Execution) (r : nat) (st : ExecutionStatus) :
  exec_worker e = Some r → exec_status e = Some st → st ≠ TIMED_OUT → lifecycle_ok e.
Proof.
  unfold lifecycle_ok. intros -> -> Hst.
  destruct st; try done; repeat constructor.
Qed.

Lemma start_lifecycle w : lifecycle_ok (self w) → lifecycle_ok (self (start w).2).
Proof.
  intros Hok. destruct (exec_worker (self w)) as [r|] eqn:Hr.
  - unfold start. py_unfold. rewrite Hr.
    by rewrite bool_decide_eq_true_2 by eauto.
  - rewrite start_unfold by done.
    destruct (ExecutionWorker_init _ _ _ _) as [wk|ex]; [|done]. simpl.
    publish_cases; by eapply lifecycle_status.
Qed.

Lemma terminated_lifecycle now w :
  lifecycle_ok (self w) → lifecycle_ok (self (terminated now w).2).
Proof.
  intros Hok. unfold terminated, the_worker, update_self. py_unfold.
  destruct (exec_worker (self w)) as [r|] eqn:Hr; [|done].
  destruct (heap w !! r) as [wk|] eqn:Hwk; [|done]. simpl.
  destruct (program_state (ExecutionWorker_env wk)) as [| |sd e c|details]; simpl.
  - unfold lifecycle_ok in *. simpl. by rewrite Hr in *.
  - rewrite Hr, Hwk. simpl. publish_cases; by eapply lifecycle_status.
  - publish_cases; by eapply lifecycle_status.
  - destruct (dict_get "error" details) as [err|]; simpl;
      [|by eapply lifecycle_status].
    destruct (dict_get "cause" details) as [cau|]; simpl;
      [|by eapply lifecycle_status].
    publish_cases; by eapply lifecycle_status.
Qed.

Lemma exec_call_lifecycle c w :
  lifecycle_ok (self w) → lifecycle_ok (self (exec_call c w).2).
Proof.
  destruct c as [|sd err cau|now|r wk]; simpl.
  - apply start_lifecycle.
  - by rewrite stop_self.
  - apply terminated_lifecycle.
  - destruct (on_worker _ _ w) as [o w'] eqn:Hon.
    apply on_worker_step in Hon as [Hs _]. simpl. by rewrite Hs.
Qed.

(** X9.  Whatever is called on an execution after its construction:
    while it holds no worker its status, stop date, output, error and
    cause are all [None]; once it holds one its status is [RUNNING],
    [SUCCEEDED], [FAILED] or [ABORTED], never [TIMED_OUT]; the status is
    [None] exactly when no worker is held. *)
Theorem lifecycle_is_kept (name : string) (role_arn exec_arn : Arn)
    (state_machine : StateMachine) (start_date : Timestamp) (input_data : pyval)
    (trace_header : option string) (client : EventsClient) (cs : list call) :
  let e := self (run cs (new_world (__init__ name role_arn exec_arn state_machine
                                             start_date input_data trace_header)
                                   client)) in
  lifecycle_ok e ∧ exec_status e ≠ Some TIMED_OUT ∧
  (exec_status e = None ↔ exec_worker e = None).
Proof.
  simpl.
  assert (∀ w, lifecycle_ok (self w) → lifecycle_ok (self (run cs w))) as Hrun.
  { unfold run. induction cs as [|c cs' IH]; intros w Hok; simpl; [done|].
    apply IH. by apply exec_call_lifecycle. }
  match goal with |- lifecycle_ok (self ?w) ∧ _ => assert (lifecycle_ok (self w)) as Hok end.
  { apply Hrun. by unfold lifecycle_ok. }
  split; [done|]. unfold lifecycle_ok in Hok.
  destruct (exec_worker _) as [r|].
  - split.
    + intros Heq. rewrite Heq in Hok.
      repeat (apply elem_of_cons in Hok as [?|Hok]; [discriminate|]).
      by apply elem_of_nil in Hok.
    + split; [|done]. intros Heq. rewrite Heq in Hok.
      repeat (apply elem_of_cons in Hok as [?|Hok]; [discriminate|]).
      by apply elem_of_nil in Hok.
  - destruct Hok as (-> & _). done.
Qed.


Lemma start_attached (w : World) (wk : ExecutionWorker) :
  exec_worker (self w) = None →
  ExecutionWorker_init (role_arn (self w)) (sm_definition (state_machine (self w)))
    (input_data (self w)) (context_object_init (self w)) = Returns wk →
  self (start w).2 = running_with (length (heap w)) (self w) ∧
  ∃ wk1, heap (start w).2 = heap w ++ [wk1].
Proof.
  intros Hnone Hinit. rewrite start_unfold, Hinit by done. simpl.
  publish_cases; eauto.
Qed.

(** X10.  Every entry of the list item and of the start output of an
    execution is an entry of its describe output, with the same value. *)
Theorem describe_extends_list_item (e : Execution) (k : string) (v : pyval) :
  dict_get k (to_execution_list_item e) = Some v ∨
  dict_get k (to_start_output e) = Some v →
  dict_get k (to_describe_output e) = Some v.
Proof.
  unfold to_execution_list_item, to_start_output, to_describe_output.
  destruct e as [n ra ea sm sd i idt th st spd out od err cau wk]. simpl.
  intros Hk.
  assert (k ∈ ["executionArn"; "stateMachineArn"; "name"; "status";
               "startDate"; "stopDate"]) as Hin.
  { destruct Hk as [Hk|Hk];
      repeat match type of Hk with
             | context [String.eqb k ?s] =>
                 destruct (String.eqb_spec k s) as [->|?]; [by repeat constructor|]
             end; done. }
  repeat (apply elem_of_cons in Hin as [->|Hin];
          [destruct Hk as [Hk|Hk]; simpl in Hk; simplify_eq;
           by destruct st as [[]|], err, cau|]).
  by apply elem_of_nil in Hin.
Qed.

(** X11.  A constructed execution that is started, whose worker ends
    its program, and whose worker then calls back, describes itself as
    [SUCCEEDED] with the callback's time as stop date and the encoded
    final document as output, and without error or cause, whatever the
    events client did meanwhile. *)
Theorem started_ended_execution_describes_success
    (name : string) (role_arn exec_arn : Arn) (state_machine : StateMachine)
    (start_date : Timestamp) (input_data : pyval) (trace_header : option string)
    (client : EventsClient) (wk ended : ExecutionWorker) (now : Timestamp) :
  let e := __init__ name role_arn exec_arn state_machine start_date input_data
                    trace_header in
  ExecutionWorker_init role_arn (sm_definition state_machine) input_data
    (context_object_init e) = Returns wk →
  program_state (ExecutionWorker_env ended) = ProgramEnded →
  let w := run [call_start; worker_runs 0 ended; call_terminated now]
               (new_world e client) in
  let d := to_describe_output (self w) in
  get "status" d = PStr "SUCCEEDED" ∧
  get "stopDate" d = PDate now ∧
  get "output" d = PStr (to_json_str (inp (ExecutionWorker_env ended)) compact) ∧
  dict_get "error" d = None ∧ dict_get "cause" d = None.
Proof.
  intros e Hinit Hps.
  destruct (start_attached (new_world e client) wk eq_refl Hinit) as (Hs0 & wk1 & Hh0).
  unfold run. cbn [foldl exec_call].
  assert (∀ (w1 : World) wk1,
            self w1 = running_with 0 e → heap w1 = [wk1] →
            let d := to_describe_output
                       (self (terminated now (on_worker 0 (modify (λ _, ended)) w1).2).2) in
            get "status" d = PStr "SUCCEEDED" ∧ get "stopDate" d = PDate now ∧
            get "output" d = PStr (to_json_str (inp (ExecutionWorker_env ended)) compact) ∧
            dict_get "error" d = None ∧ dict_get "cause" d = None) as Hrest.
  { intros [e1 h1 c1 l1] wk2 Hs Hh. simpl in Hs, Hh. subst e1 h1.
    unfold on_worker, terminated, the_worker, update_self.
    py_unfold. simpl. rewrite Hps. simpl. publish_cases; done. }
  apply (Hrest _ wk1); [done|]. by rewrite Hh0.
Qed.

End execution_more.

Section execution_more_examples.
Import py asl execution inmemory.

(** The sample execution with a worker class that rejects it. *)
Lemma start_constructor_failure_changes_nothing_witness :
  start (H := rejecting_collaborators) fresh_rejecting
  = (Raises (ValueError "invalid definition"), fresh_rejecting).
Proof.
  apply (start_constructor_failure_changes_nothing (H := rejecting_collaborators)
           fresh_rejecting (ValueError "invalid definition")); reflexivity.
Defined.

(** The first [start] of the sample execution. *)
Lemma start_attaches_worker_first_witness :
  self (start (H := collaborators) fresh).2 = running_with 0 an_execution ∧
  length (heap (start (H := collaborators) fresh).2) = 1%nat ∧
  events_client (start (H := collaborators) fresh).2
  = (inmemory.put_events
       [status_change_entry (H := collaborators) (running_with 0 an_execution)]
       (Some [])).2 ∧
  start (H := collaborators) (start (H := collaborators) fresh).2
  = (Raises InvalidName, (start (H := collaborators) fresh).2).
Proof.
  apply (start_attaches_worker_first (H := collaborators) fresh
           {| program_state := ProgramRunning; inp := document; stack := [];
              context_object :=
                [("init", context_object_init (H := collaborators) an_execution)] |});
    reflexivity.
Defined.

(** The first [start] of the sample execution while the events endpoint
    cannot be reached. *)
Lemma start_outcome_is_the_workers_witness :
  start (H := collaborators) fresh_offline
  = (Returns tt,
     mkWorld (H := collaborators) (running_with 0 an_execution)
       [{| program_state := ProgramRunning; inp := document; stack := [];
           context_object :=
             [("init", context_object_init (H := collaborators) an_execution)] |}]
       None
       [publish_failure_message (H := collaborators)
          (status_change_entry (H := collaborators) (running_with 0 an_execution))
          (exec_arn an_execution)]).
Proof.
  apply (start_outcome_is_the_workers (H := collaborators) fresh_offline
           {| program_state := ProgramRunning; inp := document; stack := [];
              context_object :=
                [("init", context_object_init (H := collaborators) an_execution)] |}
           (Raises EndpointConnectionError) None).
  - reflexivity.
  - reflexivity.
  - reflexivity.
  - intros ex [= <-]. reflexivity.
Defined.

(** The callback of a worker that was stopped at time 9, called at 12. *)
Lemma terminated_stopped_is_aborted_witness :
  exec_status (self (terminated (H := collaborators) 12 stopped_world).2) = Some ABORTED ∧
  stop_date (self (terminated (H := collaborators) 12 stopped_world).2) = Some 12 ∧
  output (self (terminated (H := collaborators) 12 stopped_world).2)
  = output (self stopped_world) ∧
  error (self (terminated (H := collaborators) 12 stopped_world).2)
  = error (self stopped_world) ∧
  cause (self (terminated (H := collaborators) 12 stopped_world).2)
  = cause (self stopped_world).
Proof.
  apply (terminated_stopped_is_aborted (H := collaborators) stopped_world 12 0%nat
           {| program_state := ProgramStopped 9 (Some "Cancelled") (Some "by user");
              inp := document; stack := [];
              context_object :=
                [("init", context_object_init (H := collaborators) an_execution)] |}
           9 (Some "Cancelled") (Some "by user"));
    vm_compute; reflexivity.
Defined.

(** The callback of a worker that is still running. *)
Lemma terminated_unsupported_state_witness :
  ∃ ex,
    terminated (H := collaborators) 12 running_world
    = (Raises ex,
       mkWorld (H := collaborators) (set_stop_date (Some 12) (self running_world))
         (heap running_world) (events_client running_world) (LOG running_world)) ∧
    exc_class ex = "RuntimeWarning".
Proof.
  apply (terminated_unsupported_state (H := collaborators) running_world 12 0%nat
           {| program_state := ProgramRunning; inp := document; stack := [];
              context_object :=
                [("init", context_object_init (H := collaborators) an_execution)] |});
    vm_compute; reflexivity.
Defined.

(** The callback of a worker whose error document has no cause. *)
Lemma terminated_error_missing_key_witness :
  terminated (H := collaborators) 12 no_cause_world
  = (Raises (KeyError "cause"),
     mkWorld (H := collaborators)
       (set_error (Some "States.TaskFailed")
          (set_exec_status (Some FAILED) (set_stop_date (Some 12) (self no_cause_world))))
       (heap no_cause_world) (events_client no_cause_world) (LOG no_cause_world)).
Proof.
  apply (proj2 (terminated_error_missing_key (H := collaborators) no_cause_world 12 0%nat
                  no_cause_env [("error", Some "States.TaskFailed")]
                  ltac:(vm_compute; reflexivity) ltac:(vm_compute; reflexivity)
                  ltac:(vm_compute; reflexivity))
               (Some "States.TaskFailed")); reflexivity.
Defined.

(** The callback of the worker of the failed sample execution. *)
Lemma terminated_publishes_what_it_leaves_witness :
  exec_status (self (terminated (H := collaborators) 5 failed_world).2) = Some FAILED ∧
  events_client (terminated (H := collaborators) 5 failed_world).2
  = (inmemory.put_events
       [status_change_entry (H := collaborators)
          (self (terminated (H := collaborators) 5 failed_world).2)]
       (events_client failed_world)).2.
Proof.
  apply (terminated_publishes_what_it_leaves (H := collaborators) failed_world 5 0%nat
           failed_env FAILED).
  - vm_compute. reflexivity.
  - vm_compute. reflexivity.
  - reflexivity.
  - intros details [= <-]. split; eexists; reflexivity.
Defined.

(** The name of the sample execution, read from its list item. *)
Lemma describe_extends_list_item_witness :
  dict_get "name" (to_describe_output (H := collaborators) an_execution)
  = Some (PStr "run-1").
Proof.
  apply (describe_extends_list_item (H := collaborators) an_execution "name"
           (PStr "run-1")).
  left. reflexivity.
Defined.

(** The sample execution from construction to the callback at time 5. *)
Lemma started_ended_execution_describes_success_witness :
  get "status"
    (to_describe_output (H := collaborators)
       (self (run (H := collaborators)
                [call_start (H := collaborators);
                 worker_runs (H := collaborators) 0 ended_env;
                 call_terminated (H := collaborators) 5] fresh)))
  = PStr "SUCCEEDED" ∧
  get "stopDate"
    (to_describe_output (H := collaborators)
       (self (run (H := collaborators)
                [call_start (H := collaborators);
                 worker_runs (H := collaborators) 0 ended_env;
                 call_terminated (H := collaborators) 5] fresh)))
  = PDate 5 ∧
  get "output"
    (to_describe_output (H := collaborators)
       (self (run (H := collaborators)
                [call_start (H := collaborators);
                 worker_runs (H := collaborators) 0 ended_env;
                 call_terminated (H := collaborators) 5] fresh)))
  = PStr (inmemory.to_json_str document compact) ∧
  dict_get "error"
    (to_describe_output (H := collaborators)
       (self (run (H := collaborators)
                [call_start (H := collaborators);
                 worker_runs (H := collaborators) 0 ended_env;
                 call_terminated (H := collaborators) 5] fresh)))
  = None ∧
  dict_get "cause"
    (to_describe_output (H := collaborators)
       (self (run (H := collaborators)
                [call_start (H := collaborators);
                 worker_runs (H := collaborators) 0 ended_env;
                 call_terminated (H := collaborators) 5] fresh)))
  = None.
Proof.
  apply (started_ended_execution_describes_success (H := collaborators)
           "run-1" "arn:aws:iam::000000000000:role/states"
           "arn:aws:states:us-east-1:000000000000:execution:pass-then-succeed:run-1"
           machine 1700000000000000 document None (Some [])
           {| program_state := ProgramRunning; inp := document; stack := [];
              context_object :=
                [("init", context_object_init (H := collaborators) an_execution)] |}
           ended_env 5); reflexivity.
Defined.

End execution_more_examples.

(** ** Documents *)

Section dict_proofs.
Import py.
Context {V : Type}.
Implicit Types (d : dict V) (k : string) (v : V).

Lemma dict_get_set_eq k v d : dict_get k (dict_set k v d) = Some v.
Proof.
  induction d as [|[k' v'] d IH]; simpl.
  - by rewrite String.eqb_refl.
  - destruct (String.eqb_spec k k') as [->|Hne]; simpl.
    + by rewrite String.eqb_refl.
    + by destruct (String.eqb_spec k k').
Qed.

Lemma dict_get_set_ne k k' v d :
  k ≠ k' → dict_get k (dict_set k' v d) = dict_get k d.
Proof.
  intros Hne. induction d as [|[k0 v0] d IH]; simpl.
  - by destruct (String.eqb_spec k k').
  - destruct (String.eqb_spec k' k0) as [->|Hne0]; simpl.
    + by destruct (String.eqb_spec k k0).
    + by destruct (String.eqb_spec k k0).
Qed.

Lemma dict_get_Some_keys k v d : dict_get k d = Some v → k ∈ dict_keys d.
Proof.
  unfold dict_keys. induction d as [|[k' v'] d IH]; simpl; [done|].
  destruct (String.eqb_spec k k') as [->|Hne]; intros Hget.
  - by left.
  - right. by apply IH.
Qed.

Lemma dict_get_None_keys k d : dict_get k d = None ↔ k ∉ dict_keys d.
Proof.
  unfold dict_keys. induction d as [|[k' v'] d IH]; simpl.
  - split; [intros _; by apply not_elem_of_nil|done].
  - rewrite not_elem_of_cons. destruct (String.eqb_spec k k') as [->|Hne].
    + split; [done|]. by intros [? _].
    + rewrite IH. split; [done|]. by intros [_ ?].
Qed.

Lemma dict_keys_cons (kv : string * V) d : dict_keys (kv :: d) = kv.1 :: dict_keys d.
Proof. done. Qed.

Lemma dict_keys_set k v d :
  dict_keys (dict_set k v d) =
    if bool_decide (k ∈ dict_keys d) then dict_keys d else dict_keys d ++ [k].
Proof.
  induction d as [|[k' v'] d IH]; simpl; [done|].
  destruct (String.eqb_spec k k') as [->|Hne]; rewrite !dict_keys_cons; simpl.
  - rewrite bool_decide_eq_true_2 by (by left). done.
  - rewrite IH. case_bool_decide as Hin.
    + rewrite bool_decide_eq_true_2 by (by right). done.
    + rewrite bool_decide_eq_false_2; [done|].
      rewrite not_elem_of_cons. done.
Qed.

Lemma dict_set_NoDup k v d : NoDup (dict_keys d) → NoDup (dict_keys (dict_set k v d)).
Proof.
  intros Hnd. rewrite dict_keys_set. case_bool_decide as Hin; [done|].
  apply NoDup_app. split_and!; [done| |apply NoDup_singleton].
  intros x Hx ->%list_elem_of_singleton. done.
Qed.

Lemma dict_set_length k v d : (length (dict_set k v d) ≤ Datatypes.S (length d))%nat.
Proof.
  induction d as [|[k' v'] d IH]; simpl; [lia|].
  destruct (String.eqb k k'); simpl; lia.
Qed.

Lemma dict_get_app k d1 d2 :
  dict_get k (d1 ++ d2) =
    match dict_get k d1 with Some v => Some v | None => dict_get k d2 end.
Proof.
  induction d1 as [|[k' v'] d1 IH]; simpl; [done|].
  by destruct (String.eqb k k').
Qed.

Lemma dict_get_filter_keys (P : string → Prop) `{!∀ k, Decision (P k)} k d :
  dict_get k (filter (λ kv, P kv.1) d) = if decide (P k) then dict_get k d else None.
Proof.
  unfold dict in *. induction d as [|[k' v'] d IH].
  - by destruct (decide (P k)).
  - rewrite filter_cons. cbn [fst]. destruct (decide (P k')) as [Hk'|Hk']; cbn [dict_get].
    + destruct (String.eqb_spec k k') as [->|Hne]; [|done].
      by destruct (decide (P k')).
    + rewrite IH. destruct (String.eqb_spec k k') as [->|Hne]; [|done].
      by destruct (decide (P k')).
Qed.

End dict_proofs.

(** ** More on the Task state *)

Section state_task_more.
Import py asl state_task.
Context `{Components}.

Lemma dict_get_pop (k k' : string) (d : dict pyval) :
  dict_get k (dict_pop k' d) = if decide (k = k') then None else dict_get k d.
Proof.
  unfold dict_pop, dict in *. induction d as [|[k0 v0] d IH].
  - by destruct (decide (k = k')).
  - rewrite filter_cons. cbn [fst].
    destruct (decide (k0 ≠ k')) as [Hk0|Hk0]; cbn [dict_get]; rewrite IH.
    + destruct (String.eqb_spec k k0) as [->|Hne]; [|done].
      by destruct (decide (k0 = k')).
    + apply dec_stable in Hk0 as ->.
      destruct (decide (k = k')) as [->|Hne]; [done|].
      by destruct (String.eqb_spec k k').
Qed.

Lemma dict_keys_pop (k : string) (d : dict pyval) :
  dict_keys (dict_pop k d) = filter (λ x, x ≠ k) (dict_keys d).
Proof.
  unfold dict_pop, dict in *. induction d as [|[k' v'] d IH]; [done|].
  rewrite dict_keys_cons, !filter_cons. cbn [fst].
  destruct (decide (k' ≠ k)); [rewrite dict_keys_cons|]; by rewrite IH.
Qed.

Lemma foldl_pop_get (k : string) (ks : list string) (d : dict pyval) :
  dict_get k (foldl (λ d parameter, dict_pop parameter d) d ks) =
    if decide (k ∈ ks) then None else dict_get k d.
Proof.
  revert d. induction ks as [|k' ks IH]; intros d; cbn [foldl].
  - destruct (decide (k ∈ [])) as [Hin|_]; [by apply elem_of_nil in Hin|done].
  - rewrite IH, dict_get_pop.
    destruct (decide (k ∈ ks)) as [Hin|Hnin], (decide (k = k')) as [->|Hne],
      (decide (_ ∈ k' :: ks)) as [Hc|Hc]; try done.
    + destruct Hc. by left.
    + destruct Hc. by right.
    + destruct Hc. by left.
    + by apply elem_of_cons in Hc as [?|?].
Qed.

(** X12.  When a Task state lists supported parameters, the document
    it produces is the one [Parameters] left on the stack, popped, with
    every supported key at its value and every other key gone. *)
Theorem eval_parameters_keeps_supported_only (self : StateTask) (p : Parameters)
    (env env1 : Environment) (items : dict pyval) (supported : gset string) :
  parameters self = Some p →
  Parameters_eval p env = (Returns tt, env1) →
  last (stack env1) = Some (PDict items) →
  _get_supported_parameters self = Some supported →
  supported ≠ ∅ →
  ∃ kept,
    _eval_parameters self env =
      (Returns (PDict kept),
       {| program_state := program_state env1; inp := inp env1;
          stack := removelast (stack env1);
          context_object := context_object env1 |}) ∧
    ∀ k, dict_get k kept = if decide (k ∈ supported) then dict_get k items else None.
Proof.
  intros Hp Heval Hlast Hsup Hne.
  unfold _eval_parameters, stack_pop. py_unfold.
  rewrite Hp, Heval, Hlast, Hsup. rewrite bool_decide_eq_true_2 by done.
  eexists. split; [done|]. intros k. rewrite foldl_pop_get.
  destruct (decide (k ∈ supported)) as [Hin|Hnin], (decide (k ∈ filter _ _)) as [Hf|Hf];
    try done.
  - apply list_elem_of_filter in Hf as [? _]. done.
  - destruct (dict_get k items) as [v|] eqn:Hget; [|done].
    destruct Hf. apply list_elem_of_filter. split; [done|].
    by eapply dict_get_Some_keys.
Qed.

(** X13.  When a Task state has [Parameters] and no (or an empty) set
    of supported parameters, it produces whatever [Parameters] left on
    top of the stack, popped and unfiltered; on an empty stack it raises
    [IndexError]. *)
Theorem eval_parameters_without_supported_pops (self : StateTask) (p : Parameters)
    (env env1 : Environment) :
  parameters self = Some p →
  Parameters_eval p env = (Returns tt, env1) →
  _get_supported_parameters self = None ∨ _get_supported_parameters self = Some ∅ →
  _eval_parameters self env =
    match last (stack env1) with
    | Some v =>
        (Returns v,
         {| program_state := program_state env1; inp := inp env1;
            stack := removelast (stack env1);
            context_object := context_object env1 |})
    | None => (Raises (IndexError "pop from empty list"), env1)
    end.
Proof.
  intros Hp Heval Hsup. unfold _eval_parameters, stack_pop. py_unfold.
  rewrite Hp, Heval. destruct (last (stack env1)) as [v|]; [|done].
  destruct Hsup as [->| ->]; [done|].
  by rewrite bool_decide_eq_false_2 by (by intros ?).
Qed.

Lemma normalise_step_raises (bindings : dict string) (ks : list string) ex :
  foldl
    (λ acc parameter_key,
       match acc with
       | Raises ex => Raises ex
       | Returns normalised_parameters =>
           match dict_get parameter_key bindings with
           | Some norm_parameter_key =>
               if negb (String.eqb norm_parameter_key EmptyString) then
                 match dict_get parameter_key normalised_parameters with
                 | Some tmp =>
                     Returns (dict_set norm_parameter_key tmp
                                (dict_pop parameter_key normalised_parameters))
                 | None => Raises (KeyError parameter_key)
                 end
               else Returns normalised_parameters
           | None => Returns normalised_parameters
           end
       end)
    (Raises ex) ks = Raises ex.
Proof. by induction ks. Qed.

Lemma normalise_from (bindings : dict string) (ks : list string) (d : dict pyval) :
  NoDup ks → NoDup (dict_keys d) → (∀ k, k ∈ ks → k ∈ dict_keys d) →
  ∃ d',
    foldl
      (λ acc parameter_key,
         match acc with
         | Raises ex => Raises ex
         | Returns normalised_parameters =>
             match dict_get parameter_key bindings with
             | Some norm_parameter_key =>
                 if negb (String.eqb norm_parameter_key EmptyString) then
                   match dict_get parameter_key normalised_parameters with
                   | Some tmp =>
                       Returns (dict_set norm_parameter_key tmp
                                  (dict_pop parameter_key normalised_parameters))
                   | None => Raises (KeyError parameter_key)
                   end
                 else Returns normalised_parameters
             | None => Returns normalised_parameters
             end
         end)
      (Returns d) ks = Returns d' ∧
    NoDup (dict_keys d') ∧ (length d' ≤ length d)%nat ∧
    ∀ k v, dict_get k d' = Some v → ∃ k0, dict_get k0 d = Some v.
Proof.
  revert d. induction ks as [|k ks IH]; intros d Hks Hd Hin; simpl.
  { exists d. split_and!; [done..|]. eauto. }
  apply NoDup_cons in Hks as [Hk Hks].
  destruct (dict_get k bindings) as [n|] eqn:Hb.
  2: { apply IH; [done..|]. intros k' Hk'. apply Hin. by right. }
  destruct (negb (String.eqb n EmptyString)).
  2: { apply IH; [done..|]. intros k' Hk'. apply Hin. by right. }
  destruct (dict_get k d) as [tmp|] eqn:Hget.
  2: { apply dict_get_None_keys in Hget. destruct Hget. apply Hin. by left. }
  assert (NoDup (dict_keys (dict_pop k d))) as Hpop.
  { rewrite dict_keys_pop. by apply NoDup_filter. }
  destruct (IH (dict_set n tmp (dict_pop k d))) as (d' & Hfold & Hnd & Hlen & Hval).
  - done.
  - by apply dict_set_NoDup.
  - intros k' Hk'. assert (k' ∈ dict_keys (dict_pop k d)) as Hk'pop.
    { rewrite dict_keys_pop, list_elem_of_filter. split.
      - intros ->. done.
      - apply Hin. by right. }
    rewrite dict_keys_set. case_bool_decide; [done|].
    apply elem_of_app. by left.
  - exists d'. split_and!; [done..| |].
    + etrans; [apply Hlen|]. etrans; [apply dict_set_length|].
      assert (length (dict_pop k d) < length d)%nat; [|lia].
      unfold dict_pop. apply dict_get_Some_keys in Hget as Hkey.
      unfold dict_keys in Hkey. apply list_elem_of_fmap in Hkey as ([k0 v0] & -> & Hkv).
      eapply (length_filter_lt _ _ (k0, v0)); [done|]. simpl. by intros ?.
    + intros k' v Hk'. apply Hval in Hk' as (k0 & Hk0).
      destruct (decide (k0 = n)) as [->|Hne].
      * rewrite dict_get_set_eq in Hk0. exists k. congruence.
      * rewrite dict_get_set_ne, dict_get_pop in Hk0 by done.
        destruct (decide (k0 = k)); [done|]. eauto.
Qed.

(** X14.  Renaming the keys of a document after the normalising
    bindings always returns (no key of the snapshot is ever gone when its
    turn comes), keeps the keys unique, never adds an entry, only carries
    values of the input, and with no bindings returns the input. *)
Theorem normalised_parameters_bindings_returns (bindings : dict string)
    (parameters : dict pyval) :
  NoDup (dict_keys parameters) →
  ∃ normalised,
    _normalised_parameters_bindings bindings parameters = Returns normalised ∧
    NoDup (dict_keys normalised) ∧
    (length normalised ≤ length parameters)%nat ∧
    (∀ k v, dict_get k normalised = Some v → ∃ k0, dict_get k0 parameters = Some v) ∧
    (bindings = [] → normalised = parameters).
Proof.
  intros Hnd.
  destruct (normalise_from bindings (dict_keys parameters) parameters)
    as (d' & Hfold & Hnd' & Hlen & Hval); [done..|].
  exists d'. split_and!; [done..|].
  intros ->. unfold _normalised_parameters_bindings in *. clear -Hfold.
  assert (∀ ks (d : dict pyval),
            foldl (λ acc parameter_key,
                     match acc with
                     | Raises ex => Raises ex
                     | Returns normalised_parameters =>
                         match dict_get parameter_key ([] : dict string) with
                         | Some norm_parameter_key =>
                             if negb (String.eqb norm_parameter_key EmptyString) then
                               match dict_get parameter_key normalised_parameters with
                               | Some tmp =>
                                   Returns (dict_set norm_parameter_key tmp
                                              (dict_pop parameter_key
                                                 normalised_parameters))
                               | None => Raises (KeyError parameter_key)
                               end
                             else Returns normalised_parameters
                         | None => Returns normalised_parameters
                         end
                     end) (Returns d) ks = Returns d) as Hid.
  { induction ks as [|k ks IH]; intros d; simpl; [done|]. apply IH. }
  rewrite Hid in Hfold. congruence.
Qed.

End state_task_more.

Section state_task_more_examples.
Import py asl state_task inmemory.

(** The service task keeps [FunctionName] and [Payload] and drops
    [Qualifier]. *)
Lemma eval_parameters_keeps_supported_only_witness :
  ∃ kept,
    _eval_parameters (H := components) service_task task_env =
      (Returns (PDict kept), task_env) ∧
    ∀ k, dict_get k kept =
           if decide (k ∈ ({[ "FunctionName"; "Payload" ]} : gset string))
           then dict_get k [("FunctionName", PStr "f"); ("Payload", document);
                            ("Qualifier", PNone)]
           else None.
Proof.
  apply (eval_parameters_keeps_supported_only (H := components) service_task
           given_parameters task_env
           {| program_state := ProgramRunning; inp := document;
              stack := [document; given_parameters]; context_object := [] |}
           [("FunctionName", PStr "f"); ("Payload", document); ("Qualifier", PNone)]
           {[ "FunctionName"; "Payload" ]}); try reflexivity.
  intros Hempty. apply (not_elem_of_empty (C := gset string) "Payload").
  rewrite <- Hempty. apply elem_of_union_r, elem_of_singleton. reflexivity.
Defined.

(** The plain task hands on what its [Parameters] pushed. *)
Lemma eval_parameters_without_supported_pops_witness :
  _eval_parameters (H := components) plain_task task_env
  = (Returns given_parameters, task_env).
Proof.
  apply (eval_parameters_without_supported_pops (H := components) plain_task
           given_parameters task_env
           {| program_state := ProgramRunning; inp := document;
              stack := [document; given_parameters]; context_object := [] |});
    [reflexivity|reflexivity|left; reflexivity].
Defined.

(** [FunctionName] renamed to [function_name]. *)
Lemma normalised_parameters_bindings_returns_witness :
  ∃ normalised,
    _normalised_parameters_bindings [("FunctionName", "function_name")]
      [("FunctionName", PStr "f"); ("Payload", document)] = Returns normalised ∧
    NoDup (dict_keys normalised) ∧
    (length normalised ≤ 2)%nat ∧
    (∀ k v, dict_get k normalised = Some v →
            ∃ k0, dict_get k0 [("FunctionName", PStr "f"); ("Payload", document)]
                  = Some v) ∧
    ([("FunctionName", "function_name")] = [] →
     normalised = [("FunctionName", PStr "f"); ("Payload", document)]).
Proof.
  apply (normalised_parameters_bindings_returns [("FunctionName", "function_name")]
           [("FunctionName", PStr "f"); ("Payload", document)]).
  unfold dict_keys. simpl. apply NoDup_cons.
  split; [by intros ?%list_elem_of_singleton|apply NoDup_singleton].
Defined.

End state_task_more_examples.

(** ** Equality of documents *)

Section py_eq_proofs.
Import py.

Lemma dict_get_NoDup {V} (d : dict V) k v :
  NoDup (d.*1) → (k, v) ∈ d → dict_get k d = Some v.
Proof.
  induction d as [|[k' v'] d IH]; simpl.
  - intros _ Hin. by apply elem_of_nil in Hin.
  - intros [Hk' Hnd]%NoDup_cons [[= -> ->]|Hin]%elem_of_cons.
    + by rewrite String.eqb_refl.
    + destruct (String.eqb_spec k k') as [->|Hne]; [|by apply IH].
      destruct Hk'. apply list_elem_of_fmap. by exists (k', v).
Qed.

Lemma py_eq_refl_sized (n : nat) (v : pyval) :
  (doc_size v ≤ n)%nat → wf_doc v → py_eq v v = true.
Proof.
  revert v. induction n as [|n IH]; intros v Hsize Hwf.
  { destruct v; simpl in Hsize; lia. }
  destruct v as [|b|z|s|t|xs|d]; simpl.
  - done.
  - by destruct b.
  - apply Z.eqb_refl.
  - apply String.eqb_refl.
  - apply Z.eqb_refl.
  - simpl in Hsize, Hwf. apply Nat.succ_le_mono in Hsize.
    induction xs as [|x xs IHxs]; [done|].
    simpl in Hsize, Hwf. destruct Hwf as [Hx Hxs]. rewrite IH; [|lia|done]. simpl.
    apply IHxs; [|done]. etrans; [apply Nat.le_add_l|exact Hsize].
  - simpl in Hsize, Hwf. apply Nat.succ_le_mono in Hsize. destruct Hwf as [Hnd Hwf].
    rewrite Nat.eqb_refl. simpl.
    assert (∀ k v, (k, v) ∈ d → dict_get k d = Some v) as Hget
      by (intros; by apply dict_get_NoDup).
    revert Hget. generalize d at 2 3. intros e Hget.
    induction d as [|[k x] d IHd]; [done|].
    simpl in Hsize, Hwf. destruct Hwf as [Hx Hd]. apply NoDup_cons in Hnd as [_ Hnd].
    rewrite (Hget k x) by (by left). rewrite IH; [|lia|done]. simpl.
    apply IHd; [|done|done|].
    + etrans; [apply Nat.le_add_l|exact Hsize].
    + intros k' v' Hin. apply Hget. by right.
Qed.

Lemma py_eq_refl (v : pyval) : wf_doc v → py_eq v v = true.
Proof. by apply (py_eq_refl_sized (doc_size v)). Qed.

End py_eq_proofs.


(** ** More on the IAM role provider *)

Section aws_iam_role_more.
Import py aws_iam_role.
Context `{Services}.

Implicit Types (P : string * dict pyval → Prop).

Lemma calls_all_nothing {A} P (m : Py Store A) :
  (∀ s o s', m s = (o, s') → calls s' = calls s) → calls_all P m.
Proof.
  intros Hm s o s' Hrun. exists []. rewrite app_nil_r. split; [by eapply Hm|done].
Qed.

Lemma calls_all_ret {A} P (a : A) : calls_all P (mret a).
Proof. apply calls_all_nothing. by intros s o s' [= <- <-]. Qed.

Lemma calls_all_raise {A} P ex : calls_all P (raise (A := A) ex).
Proof. apply calls_all_nothing. by intros s o s' [= <- <-]. Qed.

Lemma calls_all_lift {A} P (r : outcome A) : calls_all P (lift r).
Proof. apply calls_all_nothing. by intros s o s' [= <- <-]. Qed.

Lemma calls_all_gets {A} P (f : Store → A) : calls_all P (gets f).
Proof. apply calls_all_nothing. by intros s o s' [= <- <-]. Qed.

Lemma calls_all_model_set P k v : calls_all P (model_set k v).
Proof. apply calls_all_nothing. by intros s o s' [= <- <-]. Qed.

Lemma calls_all_logger_info P msg : calls_all P (logger_info msg).
Proof. apply calls_all_nothing. by intros s o s' [= <- <-]. Qed.

Lemma calls_all_invoke P operation kwargs :
  P (operation, kwargs) → calls_all P (invoke operation kwargs).
Proof.
  intros HP s o s' Hcall%invoke_calls.
  exists [(operation, kwargs)]. split; [done|]. by constructor.
Qed.

Lemma calls_all_bind {A B} P (m : Py Store A) (k : A → Py Store B) :
  calls_all P m → (∀ a, calls_all P (k a)) → calls_all P (m ≫= k).
Proof.
  intros Hm Hk s o s' [(a & s1 & Hms & Hks)|(ex & Hms & ->)]%bind_cases.
  - destruct (Hm _ _ _ Hms) as (t1 & Heq1 & Ht1).
    destruct (Hk a _ _ _ Hks) as (t2 & Heq2 & Ht2).
    exists (t1 ++ t2). split; [|by apply Forall_app].
    by rewrite Heq2, Heq1, (assoc_L (++)).
  - by apply Hm in Hms.
Qed.

(** What a pure step returned is known to what follows it. *)
Lemma calls_all_bind_lift {A B} P (r : outcome A) (k : A → Py Store B) :
  (∀ a, r = Returns a → calls_all P (k a)) → calls_all P (lift r ≫= k).
Proof.
  intros Hk s o s'. unfold mbind, Py_bind, bind, lift.
  destruct r as [a|ex].
  - by apply Hk.
  - intros [= <- <-]. exists []. by rewrite app_nil_r.
Qed.

Lemma calls_all_for_each {A} P (xs : list A) (body : A → Py Store unit) :
  (∀ x, calls_all P (body x)) → calls_all P (for_each xs body).
Proof.
  intros Hbody. induction xs as [|x xs IH]; simpl.
  - apply (calls_all_ret P tt).
  - apply (calls_all_bind P (body x) (λ _, for_each xs body)); auto.
Qed.

Lemma calls_all_call_safe P (func : Py Store pyval) :
  calls_all P func → calls_all P (call_safe func).
Proof.
  intros Hf s o s'. unfold call_safe, try_except.
  destruct (func s) as [[a|ex] s1] eqn:Hfs.
  - intros [= <- <-]. eauto.
  - destruct (isinstance ex "Exception"); intros [= <- <-]; eauto.
Qed.


Ltac calls_step side :=
  first
    [ apply calls_all_bind_lift; intros ? ?
    | apply calls_all_bind; [|intros ?]
    | apply calls_all_invoke; side
    | apply calls_all_for_each; intros ?
    | apply calls_all_call_safe
    | apply calls_all_ret | apply calls_all_raise | apply calls_all_lift
    | apply calls_all_gets | apply calls_all_model_set | apply calls_all_logger_info
    | match goal with |- calls_all _ (if ?b then _ else _) => destruct b end
    | match goal with |- calls_all _ (match ?v with _ => _ end) => destruct v end ].

Lemma subscript_returns (d : dict pyval) k v :
  subscript d k = Returns v ↔ dict_get k d = Some v.
Proof.
  unfold subscript. destruct (dict_get k d); split; intros [=]; by subst.
Qed.

Lemma dict_get_unlisted (excluded : list string) k (d : dict pyval) :
  dict_get k (filter (λ kv : string * pyval, kv.1 ∉ excluded) d) =
    if decide (k ∈ excluded) then None else dict_get k d.
Proof.
  unfold dict in *. induction d as [|[k' v'] d IH].
  - by destruct (decide _).
  - rewrite filter_cons. cbn [fst].
    destruct (decide (k' ∉ excluded)) as [Hk'|Hk']; cbn [dict_get]; rewrite IH.
    + destruct (String.eqb_spec k k') as [->|Hne]; [|done].
      by destruct (decide (k' ∈ excluded)).
    + apply dec_stable in Hk'.
      destruct (decide (k ∈ excluded)) as [Hk|Hk]; [done|].
      destruct (String.eqb_spec k k') as [->|Hne]; done.
Qed.

Lemma named_model_name (req : ResourceRequest) :
  dict_get "RoleName" (named_model req) = Some (chosen_role_name req).
Proof.
  unfold named_model, chosen_role_name, get, get_default.
  destruct (dict_get "RoleName" (desired_state req)) as [n|] eqn:Hn; simpl.
  - destruct (truthy n); [done|]. apply dict_get_set_eq.
  - apply dict_get_set_eq.
Qed.

Lemma named_model_other (req : ResourceRequest) k :
  k ≠ "RoleName" → dict_get k (named_model req) = dict_get k (desired_state req).
Proof.
  intros Hne. unfold named_model. destruct (truthy _); [done|].
  by apply dict_get_set_ne.
Qed.

(** [create] up to its first client call. *)
Lemma create_unfold (s : Store) :
  create s =
    let req := request s in
    let role_name := chosen_role_name req in
    let model := named_model req in
    let s1 :=
      {| request :=
           {| desired_state := model; previous_state := previous_state req;
              stack_name := stack_name req;
              logical_resource_id := logical_resource_id req |};
         iam := iam s; calls := calls s; logger := logger s |} in
    (policy_document ← lift (subscript model "AssumeRolePolicyDocument");
     create_role_response ←
       invoke "create_role"
         (filter (λ kv, kv.1 ∉ ["ManagedPolicyArns"; "Policies";
                                "AssumeRolePolicyDocument"]) model
          ++ [("AssumeRolePolicyDocument", PStr (json_dumps policy_document))]);
     policy_arns ← lift (py_iter (get_default "ManagedPolicyArns" (PList []) model));
     for_each policy_arns
       (λ arn, invoke "attach_role_policy" [("RoleName", role_name); ("PolicyArn", arn)];;
               mret tt);;
     inline_policies ← lift (py_iter (get_default "Policies" (PList []) model));
     for_each inline_policies
       (λ policy,
          match policy with
          | PDict p =>
              let pol_name := get "PolicyName" p in
              doc ← lift (inline_policy_document p);
              model_role_name ← lift (subscript model "RoleName");
              invoke "put_role_policy"
                [("RoleName", model_role_name); ("PolicyName", pol_name);
                 ("PolicyDocument", PStr doc)];;
              mret tt
          | _ =>
              logger_info ("Invalid format of policy for IAM role " +:+
                           json_dumps (get "RoleName" model))
          end);;
     role ← lift (getitem create_role_response "Role");
     arn ← lift (getitem role "Arn");
     model_set "Arn" arn;;
     role ← lift (getitem create_role_response "Role");
     role_id ← lift (getitem role "RoleId");
     model_set "RoleId" role_id;;
     model ← gets (λ s, desired_state (request s));
     mret {| status := SUCCESS; resource_model := model |})
      (if truthy (get "RoleName" (desired_state req)) then s else s1).
Proof.
  unfold create, named_model, chosen_role_name. py_unfold. unfold model_set. py_unfold.
  by destruct (truthy (get "RoleName" (desired_state (request s)))).
Qed.


(** X15.  [create] on a desired state without
    [AssumeRolePolicyDocument] raises [KeyError] before any client call;
    the generated role name has by then been written into the desired
    state. *)
Theorem create_without_trust_policy (s : Store) :
  dict_get "AssumeRolePolicyDocument" (desired_state (request s)) = None →
  ∃ s',
    create s = (Raises (KeyError "AssumeRolePolicyDocument"), s') ∧
    calls s' = calls s ∧ iam s' = iam s ∧
    desired_state (request s') = named_model (request s).
Proof.
  intros Hnone. rewrite create_unfold. cbv zeta. py_unfold.
  unfold subscript. rewrite named_model_other, Hnone by done.
  eexists. split; [done|].
  unfold named_model. by destruct (truthy _).
Qed.

(** X16.  However [create] ends, every client call it has made is
    [create_role], [attach_role_policy] or [put_role_policy], and names
    the role it chose (the desired name, or the generated one). *)
Theorem create_touches_only_its_role (s : Store) :
  ∃ made,
    calls (create s).2 = calls s ++ made ∧
    Forall (λ c, c.1 ∈ create_operations ∧
                 dict_get "RoleName" c.2 = Some (chosen_role_name (request s))) made.
Proof.
  destruct (create s) as [o s'] eqn:Hrun. simpl.
  rewrite create_unfold in Hrun. cbv zeta in Hrun.
  match type of Hrun with ?m ?s0 = _ =>
    assert (calls s0 = calls s) as Hs0 by (by destruct (truthy _));
    assert (calls_all
              (λ c, c.1 ∈ create_operations ∧
                    dict_get "RoleName" c.2 = Some (chosen_role_name (request s))) m)
      as Hall
  end.
  { repeat calls_step
      ltac:(split; [unfold create_operations; repeat constructor|]; simpl).
    - rewrite dict_get_app, dict_get_unlisted.
      rewrite decide_False.
      + by rewrite named_model_name.
      + intros Hin. repeat (apply elem_of_cons in Hin as [?|Hin]; [done|]).
        by apply elem_of_nil in Hin.
    - done.
    - match goal with Hsub : subscript _ "RoleName" = _ |- _ =>
        apply subscript_returns in Hsub; rewrite named_model_name in Hsub
      end. congruence. }
  apply Hall in Hrun as (made & Hmade & Hforall). exists made. by rewrite Hmade, Hs0.
Qed.

(** X17.  However [delete] ends, every client call it has made is one
    of its five listing, detaching and deleting operations, and names the
    role of the previous state. *)
Theorem delete_touches_only_the_previous_role (s : Store) :
  ∃ made,
    calls (delete s).2 = calls s ++ made ∧
    Forall (λ c, c.1 ∈ delete_operations ∧
                 dict_get "RoleName" c.2
                 = dict_get "RoleName" (previous_state (request s))) made.
Proof.
  destruct (delete s) as [o s'] eqn:Hrun. simpl. unfold delete in Hrun.
  apply bind_cases in Hrun as [(req & s1 & [= <- <-] & Hrun)|(ex & [=] & _)].
  match type of Hrun with ?m s = _ =>
    assert (calls_all
              (λ c, c.1 ∈ delete_operations ∧
                    dict_get "RoleName" c.2
                    = dict_get "RoleName" (previous_state (request s))) m)
      as Hall
  end.
  { apply calls_all_bind_lift. intros role_name Hname%subscript_returns.
    repeat calls_step
      ltac:(split; [unfold delete_operations; repeat constructor|]; simpl;
            by rewrite Hname). }
  by apply Hall in Hrun.
Qed.


Lemma invoke_frame operation kwargs s o s' :
  invoke operation kwargs s = (o, s') →
  calls s' = calls s ++ [(operation, kwargs)] ∧
  request s' = request s ∧ logger s' = logger s.
Proof.
  unfold invoke. destruct (iam_call operation kwargs (iam s)) as [o' c].
  by intros [= <- <-].
Qed.

Lemma attach_loop_returns role_name (arns : list pyval) s s' :
  for_each arns
    (λ arn, invoke "attach_role_policy" [("RoleName", role_name); ("PolicyArn", arn)];;
            mret tt) s = (Returns tt, s') →
  calls s' = calls s ++ map (attach_call role_name) arns ∧ request s' = request s.
Proof.
  revert s. induction arns as [|arn arns IH]; intros s; simpl.
  - intros [= <-]. by rewrite app_nil_r.
  - intros ([] & s1 & Hbody & Hrest)%bind_returns.
    apply bind_returns in Hbody as (a & s2 & (Hc & Hr & _)%invoke_frame & [= <-]).
    apply IH in Hrest as [Hc' Hr']. rewrite Hc', Hc, Hr', Hr.
    by rewrite <- (assoc_L (++)).
Qed.

Lemma put_loop_returns (model : dict pyval) role_name (policies : list pyval) s s' :
  dict_get "RoleName" model = Some role_name →
  for_each policies
    (λ policy,
       match policy with
       | PDict p =>
           let pol_name := get "PolicyName" p in
           doc ← lift (inline_policy_document p);
           model_role_name ← lift (subscript model "RoleName");
           invoke "put_role_policy"
             [("RoleName", model_role_name); ("PolicyName", pol_name);
              ("PolicyDocument", PStr doc)];;
           mret tt
       | _ =>
           logger_info ("Invalid format of policy for IAM role " +:+
                        json_dumps (get "RoleName" model))
       end) s = (Returns tt, s') →
  calls s' = calls s ++ omap (put_call role_name) policies ∧ request s' = request s.
Proof.
  intros Hname. revert s. induction policies as [|policy policies IH]; intros s; simpl.
  - intros [= <-]. by rewrite app_nil_r.
  - intros ([] & s1 & Hbody & Hrest)%bind_returns.
    apply IH in Hrest as [Hc' Hr']. rewrite Hc', Hr'.
    assert (calls s1 = calls s ++ from_option (λ c, [c]) [] (put_call role_name policy)
            ∧ request s1 = request s) as [Hc Hr].
    { destruct policy as [| | | | | |p]; try (by injection Hbody as <-; rewrite app_nil_r).
      cbv zeta in Hbody.
      apply bind_returns in Hbody as (doc & s2 & [Hdoc ->]%lift_returns & Hbody).
      apply bind_returns in Hbody as (n & s2 & [Hn%subscript_returns ->]%lift_returns & Hbody).
      apply bind_returns in Hbody as (a & s2 & (Hc & Hr & _)%invoke_frame & [= <-]).
      rewrite Hname in Hn. injection Hn as <-.
      simpl. rewrite Hdoc. simpl. by rewrite Hc, Hr. }
    rewrite Hc, Hr. split; [|done]. rewrite <- (assoc_L (++)). f_equal.
    by destruct (put_call role_name policy).
Qed.

(** Everything a [create] that returns has done. *)
Lemma create_returns (s : Store) (event : ProgressEvent) (s' : Store) :
  create s = (Returns event, s') →
  let req := request s in
  let model := named_model req in
  ∃ doc arns policies role arn role_id,
    dict_get "AssumeRolePolicyDocument" model = Some doc ∧
    py_iter (get_default "ManagedPolicyArns" (PList []) model) = Returns arns ∧
    py_iter (get_default "Policies" (PList []) model) = Returns policies ∧
    calls s' =
      calls s ++
      ("create_role",
       filter (λ kv, kv.1 ∉ ["ManagedPolicyArns"; "Policies";
                              "AssumeRolePolicyDocument"]) model
       ++ [("AssumeRolePolicyDocument", PStr (json_dumps doc))]) ::
      map (attach_call (chosen_role_name req)) arns ++
      omap (put_call (chosen_role_name req)) policies ∧
    getitem role "Arn" = Returns arn ∧ getitem role "RoleId" = Returns role_id ∧
    event = {| status := SUCCESS;
               resource_model := dict_set "RoleId" role_id (dict_set "Arn" arn model) |} ∧
    desired_state (request s') = resource_model event ∧
    previous_state (request s') = previous_state req.
Proof.
  rewrite create_unfold. cbv zeta.
  set (s0 := if truthy _ then s else _).
  assert (calls s0 = calls s ∧ desired_state (request s0) = named_model (request s) ∧
          previous_state (request s0) = previous_state (request s)) as (Hc0 & Hd0 & Hp0).
  { unfold s0, named_model. by destruct (truthy _). }
  clearbody s0.
  intros (doc & s1 & [Hdoc%subscript_returns ->]%lift_returns & Hrun)%bind_returns.
  apply bind_returns in Hrun as (response & s1 & (Hc1 & Hr1 & _)%invoke_frame & Hrun).
  apply bind_returns in Hrun as (arns & s2 & [Harns ->]%lift_returns & Hrun).
  apply bind_returns in Hrun as ([] & s2 & [Hc2 Hr2]%attach_loop_returns & Hrun).
  apply bind_returns in Hrun as (policies & s3 & [Hpols ->]%lift_returns & Hrun).
  apply bind_returns in Hrun
    as ([] & s3 & [Hc3 Hr3]%(put_loop_returns _ (chosen_role_name (request s))) & Hrun);
    [|apply named_model_name].
  apply bind_returns in Hrun as (role & s4 & [Hrole ->]%lift_returns & Hrun).
  apply bind_returns in Hrun as (arn & s4 & [Harn ->]%lift_returns & Hrun).
  apply bind_returns in Hrun as ([] & s4 & [= <-] & Hrun).
  apply bind_returns in Hrun as (role' & s5 & [Hrole' ->]%lift_returns & Hrun).
  apply bind_returns in Hrun as (role_id & s5 & [Hid ->]%lift_returns & Hrun).
  apply bind_returns in Hrun as ([] & s5 & [= <-] & Hrun).
  apply bind_returns in Hrun as (model' & s6 & [= <- <-] & [= <- <-]).
  rewrite Hrole in Hrole'. injection Hrole' as <-.
  exists doc, arns, policies, role, arn, role_id. simpl.
  rewrite Hr3, Hr2, Hr1, Hd0, Hp0, Hc3, Hc2, Hc1, Hc0.
  split_and!; try done. by rewrite <- !(assoc_L (++)).
Qed.


(** X19.  A [create] that returns reports [SUCCESS] with the desired
    state as the request now holds it: the chosen role name, an [Arn] and
    a [RoleId], and every other property, the inline policies apart (the
    loop over their statements rewrites them in place), as it was
    desired; the previous state is untouched. *)
Theorem create_returns_the_named_model (s : Store) (event : ProgressEvent) (s' : Store) :
  create s = (Returns event, s') →
  status event = SUCCESS ∧
  desired_state (request s') = resource_model event ∧
  previous_state (request s') = previous_state (request s) ∧
  dict_get "RoleName" (resource_model event) = Some (chosen_role_name (request s)) ∧
  is_Some (dict_get "Arn" (resource_model event)) ∧
  is_Some (dict_get "RoleId" (resource_model event)) ∧
  ∀ k, k ∉ ["RoleName"; "Arn"; "RoleId"; "Policies"] →
       dict_get k (resource_model event) = dict_get k (desired_state (request s)).
Proof.
  intros (doc & arns & policies & role & arn & role_id &
          _ & _ & _ & _ & _ & _ & -> & Hd & Hp)%create_returns.
  simpl in *. split_and!; [done..| | | |].
  - rewrite !dict_get_set_ne by done. apply named_model_name.
  - rewrite dict_get_set_ne by done. rewrite dict_get_set_eq. eauto.
  - rewrite dict_get_set_eq. eauto.
  - intros k Hk. rewrite !not_elem_of_cons in Hk. destruct Hk as (? & ? & ? & _ & _).
    rewrite !dict_get_set_ne by done. by apply named_model_other.
Qed.






(** X21.  When the previous state holds no [RoleName], [delete] raises
    [KeyError], and so does an [update] whose desired state names the
    role; neither has made a call or changed the store. *)
Theorem previous_state_without_name (s : Store) :
  dict_get "RoleName" (previous_state (request s)) = None →
  delete s = (Raises (KeyError "RoleName"), s) ∧
  (truthy (get "RoleName" (desired_state (request s))) = true →
   update s = (Raises (KeyError "RoleName"), s)).
Proof.
  intros Hnone. split.
  - unfold delete, subscript. py_unfold. by rewrite Hnone.
  - intros Ht. unfold update, name_changed, subscript. py_unfold.
    by rewrite Ht, Hnone.
Qed.

Lemma map_outcome_returns {A B} (f : A → outcome B) (xs : list A) (ys : list B) :
  map_outcome f xs = Returns ys ↔ Forall2 (λ x y, f x = Returns y) xs ys.
Proof.
  revert ys. induction xs as [|x xs IH]; intros ys; simpl.
  - split; [intros [= <-]; constructor|by intros ->%Forall2_nil_inv_l].
  - destruct (f x) as [y|ex] eqn:Hfx.
    + destruct (map_outcome f xs) as [ys'|ex] eqn:Hxs.
      * split.
        -- intros [= <-]. constructor; [done|]. by apply IH.
        -- intros (y' & ys'' & Hy & Hrest & ->)%Forall2_cons_inv_l.
           apply IH in Hrest. congruence.
      * split; [done|].
        intros (y' & ys'' & Hy & Hrest & ->)%Forall2_cons_inv_l.
        apply IH in Hrest. done.
    + split; [done|].
      intros (y' & ys'' & Hy & Hrest & ->)%Forall2_cons_inv_l. congruence.
Qed.


End aws_iam_role_more.

Section aws_iam_role_documents.
Import py aws_iam_role.
Context `{Services}.

(** X23.  An [update] whose desired state leaves the role name and the
    trust policy unset or as the previous state has them, and the managed
    policy ARNs as the previous state has them, makes no call and returns
    the previous state (the previous documents being well formed). *)
Theorem update_of_unchanged_properties (s : Store) (old_name : pyval) :
  let props := desired_state (request s) in
  let _states := previous_state (request s) in
  dict_get "RoleName" _states = Some old_name →
  dict_get "RoleName" props = None ∨ dict_get "RoleName" props = Some old_name →
  dict_get "AssumeRolePolicyDocument" props = None ∨
  dict_get "AssumeRolePolicyDocument" props
  = dict_get "AssumeRolePolicyDocument" _states →
  dict_get "ManagedPolicyArns" props = dict_get "ManagedPolicyArns" _states →
  (∀ k v, dict_get k _states = Some v → wf_doc v) →
  update s = (Returns {| status := SUCCESS; resource_model := _states |}, s).
Proof.
  intros props _states Hold Hname Hpolicy Harns Hwf.
  rewrite (update_decision s old_name Hold).
  assert (replacement_needed (request s) = false) as ->; [|done].
  unfold replacement_needed, py_ne, get, get_default. fold props _states.
  rewrite Harns, Hold. simpl.
  assert (py_eq (default (PList []) (dict_get "ManagedPolicyArns" _states))
                (default (PList []) (dict_get "ManagedPolicyArns" _states)) = true) as ->.
  { apply py_eq_refl. destruct (dict_get "ManagedPolicyArns" _states) eqn:Hget; simpl.
    - by eapply Hwf.
    - done. }
  assert (truthy (default PNone (dict_get "RoleName" props))
          && negb (py_eq (default PNone (dict_get "RoleName" props)) old_name) = false)
    as ->.
  { destruct Hname as [-> | ->]; simpl; [done|].
    rewrite py_eq_refl by (by eapply Hwf). apply andb_false_r. }
  assert (truthy (default PNone (dict_get "AssumeRolePolicyDocument" props))
          && negb (py_eq (default PNone (dict_get "AssumeRolePolicyDocument" props))
                         (default (PStr EmptyString)
                            (dict_get "AssumeRolePolicyDocument" _states))) = false)
    as ->; [|done].
  destruct Hpolicy as [-> | ->]; simpl; [done|].
  destruct (dict_get "AssumeRolePolicyDocument" _states) as [doc|] eqn:Hget; simpl; [|done].
  rewrite py_eq_refl by (by eapply Hwf). apply andb_false_r.
Qed.

Lemma filter_statement_resources_clean (statement statement' : pyval) :
  filter_statement_resources statement = Returns statement' →
  clean_statement statement'.
Proof.
  unfold filter_statement_resources. destruct statement as [| | | | | |st]; try done.
  destruct (get "Resource" st) as [| | | | |rs|] eqn:Hres; intros [= <-]; simpl;
    rewrite ?Hres; try done.
  unfold get, get_default. rewrite dict_get_set_eq. simpl.
  apply Forall_forall. intros r Hr. apply list_elem_of_filter in Hr as [Hr _].
  by destruct (truthy r).
Qed.

Lemma inline_policy_document_dumps (policy : dict pyval) :
  inline_policy_document policy =
    match inline_policy policy with
    | Returns doc => Returns (json_dumps (PDict doc))
    | Raises ex => Raises ex
    end.
Proof.
  unfold inline_policy_document, inline_policy.
  repeat (case_match; simplify_eq; try done).
Qed.

(** X24.  The policy document [create] puts for an inline policy is the
    encoding of a document that has a non-empty [Version] and whose
    statements list no empty resource. *)
Theorem inline_policy_document_is_clean (policy : dict pyval) (text : string) :
  inline_policy_document policy = Returns text →
  ∃ doc,
    text = json_dumps (PDict doc) ∧
    truthy (get "Version" doc) = true ∧
    clean_statements (get "Statement" doc).
Proof.
  rewrite inline_policy_document_dumps.
  destruct (inline_policy policy) as [doc|ex] eqn:Hdoc; [|done].
  intros [= <-]. exists doc. split; [done|].
  unfold inline_policy in Hdoc.
  destruct (subscript policy "PolicyDocument") as [raw|]; [|done].
  destruct (dict_of raw) as [copied|]; [|done].
  destruct (remove_none_values (PDict copied)) as [| | | | | |doc0]; try done.
  cbv zeta in Hdoc.
  set (versioned := dict_set "Version" _ doc0) in *.
  assert (truthy (get "Version" versioned) = true) as Hversion.
  { unfold versioned, get, get_default. rewrite dict_get_set_eq. simpl.
    by destruct (truthy (default PNone (dict_get "Version" doc0))) eqn:Ht. }
  destruct (subscript versioned "Statement") as [statements|]; [|done].
  destruct (map_outcome _ _) as [sts'|] eqn:Hmap; [|done].
  injection Hdoc as <-.
  apply map_outcome_returns in Hmap.
  assert (Forall clean_statement sts') as Hclean.
  { apply Forall_forall. intros st' Hin.
    apply list_elem_of_lookup in Hin as [i Hi].
    destruct (Forall2_lookup_r _ _ _ _ _ Hmap Hi) as (st & _ & Hst).
    by eapply filter_statement_resources_clean. }
  split.
  - unfold get, get_default in *. by rewrite dict_get_set_ne.
  - unfold get, get_default. rewrite dict_get_set_eq. simpl.
    apply Forall2_length in Hmap as Hlen.
    destruct statements as [| | | | |sts|d]; simpl in *; try done;
      (destruct sts' as [|st' [|]]; try done; simpl;
       apply Forall_inv in Hclean; by destruct st').
Qed.

End aws_iam_role_documents.

Section aws_iam_role_more_examples.
Import py aws_iam_role inmemory.

(** A template without a trust policy and without a name. *)
Lemma create_without_trust_policy_witness :
  ∃ s',
    create (H := services) untrusted_role_create
    = (Raises (KeyError "AssumeRolePolicyDocument"), s') ∧
    calls s' = calls untrusted_role_create ∧ iam s' = iam untrusted_role_create ∧
    desired_state (request s') = named_model (H := services) (request untrusted_role_create).
Proof.
  apply (create_without_trust_policy (H := services) untrusted_role_create).
  reflexivity.
Defined.


Lemma create_returns_the_named_model_witness :
  dict_get "RoleName" (desired_state (request (create (H := services) full_role_create).2))
  = Some (PStr "app-role") ∧
  is_Some (dict_get "Arn"
             (desired_state (request (create (H := services) full_role_create).2))) ∧
  is_Some (dict_get "RoleId"
             (desired_state (request (create (H := services) full_role_create).2))).
Proof.
  destruct (create_returns_the_named_model (H := services) full_role_create
              {| status := SUCCESS;
                 resource_model :=
                   desired_state (request (create (H := services) full_role_create).2) |}
              (create (H := services) full_role_create).2
              ltac:(vm_compute; reflexivity))
    as (_ & _ & _ & Hname & Harn & Hid & _).
  exact (conj Hname (conj Harn Hid)).
Defined.


(** An update that names the role while the previous state has no name. *)
Lemma previous_state_without_name_witness :
  update (H := services) nameless_previous = (Raises (KeyError "RoleName"), nameless_previous).
Proof.
  apply (proj2 (previous_state_without_name (H := services) nameless_previous eq_refl)).
  reflexivity.
Defined.


(** The update of a role whose template names no role. *)
Lemma update_of_unchanged_properties_witness :
  update (H := services) unnamed_role_update
  = (Returns {| status := SUCCESS;
                resource_model := previous_state (request unnamed_role_update) |},
     unnamed_role_update).
Proof.
  apply (update_of_unchanged_properties (H := services) unnamed_role_update
           (PStr "stack-Role")).
  - reflexivity.
  - left. reflexivity.
  - right. reflexivity.
  - reflexivity.
  - intros k v. simpl.
    repeat (destruct (String.eqb k _); [intros [= <-]; simpl; try exact I|]);
      [|discriminate].
    split; [|repeat split].
    apply NoDup_cons. split; [by intros ?%list_elem_of_singleton|apply NoDup_singleton].
Defined.

(** The document put for the inline policy [logs]. *)
Lemma inline_policy_document_is_clean_witness :
  ∃ doc,
    dumps ", " ": "
      (PDict [("Statement",
               PList [PDict [("Effect", PStr "Allow");
                             ("Action", PStr "logs:*");
                             ("Resource", PList [PStr "arn:aws:logs:::*"])]]);
              ("Version", PStr "2012-10-17")])
    = json_dumps (Services := services) (PDict doc) ∧
    truthy (get "Version" doc) = true ∧
    clean_statements (get "Statement" doc).
Proof.
  apply (inline_policy_document_is_clean (H := services) inline_policy_example).
  vm_compute. reflexivity.
Defined.

End aws_iam_role_more_examples.
